(** * Eventer payment server: the request handlers of [server.js]

    The server is a thin proxy in front of a payment processor.  Every
    handler is embedded as a program over the processor's calls, the
    console and the response object; a program is run against an arbitrary
    processor, and the run records, in order, every call with its outcome,
    every console line and every response that was sent. *)

From Stdlib Require Import List String Ascii ZArith Bool Lia Arith DecimalString.
Import ListNotations.
Open Scope string_scope.

Set Implicit Arguments.
Set Warnings "-register-all".

(** ** JavaScript values *)

(** Values that travel through the handlers: request fields parsed from
    JSON, parameters handed to the processor, response bodies.  Numbers are
    the integers (amounts are in minor units); an object is the list of its
    properties in insertion order, the first binding of a key being the one
    a property read sees; [VBuffer] is the raw body of the webhook route. *)
Inductive value : Type :=
| VUndefined
| VNull
| VBool (b : bool)
| VNumber (n : Z)
| VString (s : string)
| VArray (items : list value)
| VObject (props : list (string * value))
| VBuffer (bytes : list Byte.byte).

(** [!v] is [negb (truthy v)]: undefined, null, false, 0 and the empty
    string are the falsy values. *)
Definition truthy (v : value) : bool :=
  match v with
  | VUndefined | VNull => false
  | VBool b => b
  | VNumber n => negb (n =? 0)%Z
  | VString s => negb (s =? "")
  | VArray _ | VObject _ | VBuffer _ => true
  end.

(** [a || b] *)
Definition js_or (a b : value) : value := if truthy a then a else b.

Fixpoint lookup (k : string) (props : list (string * value)) : value :=
  match props with
  | [] => VUndefined
  | (k', v) :: rest => if k =? k' then v else lookup k rest
  end.

(** Property read on a parsed body, as in [const { a, b } = req.body]:
    a key the object does not have reads as undefined. *)
Definition prop (v : value) (k : string) : value :=
  match v with
  | VObject props => lookup k props
  | _ => VUndefined
  end.

(** [obj.k = v] on an object literal under construction. *)
Fixpoint assign (k : string) (v : value) (props : list (string * value))
  : list (string * value) :=
  match props with
  | [] => [(k, v)]
  | (k', v') :: rest =>
      if k =? k' then (k, v) :: rest else (k', v') :: assign k v rest
  end.

Definition upper_char (c : ascii) : ascii :=
  let n := nat_of_ascii c in
  if ((97 <=? n) && (n <=? 122))%nat then ascii_of_nat (n - 32)%nat else c.

(** What [s.toUpperCase()] gives for a string of ASCII characters. The
    handlers do not use it: they take the language's [toUpperCase] as it
    is (see the handlers); this one only runs them on concrete ASCII
    inputs. *)
Fixpoint toUpperCase_ascii (s : string) : string :=
  match s with
  | EmptyString => EmptyString
  | String c rest => String (upper_char c) (toUpperCase_ascii rest)
  end.

(** A thrown value: an [Error] with its [name] and [message]. *)
Record error : Type := Error { error_name : string; message : string }.

Definition error_value (e : error) : value :=
  VObject [("name", VString (error_name e)); ("message", VString (message e))].

(** Outcome of a call that may throw, or of an awaited promise. *)
Inductive result (A : Type) : Type :=
| Fulfilled (a : A)
| Rejected (e : error).
Arguments Fulfilled {A} a.
Arguments Rejected {A} e.

(** Reading property [k] of [null]. *)
Definition null_deref (k : string) : error :=
  Error "TypeError" ("Cannot read properties of null (reading '" ++ k ++ "')").

(** Calling [toUpperCase] on a value that is not a string. *)
Definition not_a_function (what : string) : error :=
  Error "TypeError" (what ++ " is not a function").

(** ** Objects of the processor's API

    The handlers read these through the processor's client library; the
    records carry the fields the handlers touch plus what identifies the
    object.  Fields the API declares nullable are options. *)

Module ApiList.
Record t (A : Type) : Type := Make { data : list A; has_more : bool }.
Arguments Make {A} data has_more.
Arguments data {A} _.
Arguments has_more {A} _.
End ApiList.

Module Customer.
Record t : Type := Make { id : string; email : value; metadata : value }.
End Customer.

Module EphemeralKey.
Record t : Type := Make { id : string; secret : string }.
End EphemeralKey.

Module PaymentIntent.
Record t : Type := Make {
  id : string;
  client_secret : string;
  amount : value;
  currency : value;
  customer : value
}.
End PaymentIntent.

Module Coupon.
Record t : Type := Make {
  id : string;
  percent_off : value;
  amount_off : value;
  duration : value;
  duration_in_months : value
}.
End Coupon.

Module PromotionCode.
Record t : Type := Make {
  id : string;
  code : string;
  active : bool;
  coupon : Coupon.t
}.
End PromotionCode.

Module Invoice.
Record t : Type := Make { id : string; payment_intent : option PaymentIntent.t }.
End Invoice.

Module Subscription.
Record t : Type := Make {
  id : string;
  customer : string;
  status : string;
  latest_invoice : option Invoice.t
}.
End Subscription.

Module Event.
(** [data_object] is [event.data.object], always an object. *)
Record t : Type := Make {
  id : string;
  type : string;
  data_object : list (string * value)
}.
End Event.

(** ** Calls into the processor's client library *)

Inductive call : Type :=
| customers_list (params : value)
| customers_create (params : value)
| ephemeralKeys_create (params options : value)
| paymentIntents_create (params : value)
| promotionCodes_list (params : value)
| subscriptions_create (params : value)
| subscriptions_list (params : value)
| subscriptions_cancel (id : string)
| webhooks_constructEvent (payload header secret : value).

Definition reply_of (c : call) : Type :=
  match c with
  | customers_list _ => ApiList.t Customer.t
  | customers_create _ => Customer.t
  | ephemeralKeys_create _ _ => EphemeralKey.t
  | paymentIntents_create _ => PaymentIntent.t
  | promotionCodes_list _ => ApiList.t PromotionCode.t
  | subscriptions_create _ => Subscription.t
  | subscriptions_list _ => ApiList.t Subscription.t
  | subscriptions_cancel _ => Subscription.t
  | webhooks_constructEvent _ _ _ => Event.t
  end.

(** What the record of a run keeps of a call's result. *)
Inductive reply : Type :=
| Customers (l : ApiList.t Customer.t)
| ACustomer (c : Customer.t)
| AnEphemeralKey (k : EphemeralKey.t)
| APaymentIntent (p : PaymentIntent.t)
| PromotionCodes (l : ApiList.t PromotionCode.t)
| ASubscription (s : Subscription.t)
| Subscriptions (l : ApiList.t Subscription.t)
| AnEvent (e : Event.t).

Definition reply_in (c : call) : reply_of c -> reply :=
  match c with
  | customers_list _ => Customers
  | customers_create _ => ACustomer
  | ephemeralKeys_create _ _ => AnEphemeralKey
  | paymentIntents_create _ => APaymentIntent
  | promotionCodes_list _ => PromotionCodes
  | subscriptions_create _ => ASubscription
  | subscriptions_list _ => Subscriptions
  | subscriptions_cancel _ => ASubscription
  | webhooks_constructEvent _ _ _ => AnEvent
  end.

Definition outcome_in (c : call) (r : result (reply_of c)) : result reply :=
  match r with
  | Fulfilled a => Fulfilled (reply_in c a)
  | Rejected e => Rejected e
  end.

(** ** Handler programs *)

(** Body of a response: [res.json(v)] or [res.send(text)]. *)
Inductive res_body : Type :=
| Json (v : value)
| Text (s : string).

Inductive prog (A : Type) : Type :=
| Ret (a : A)
| Throw (e : error)
| Stripe (c : call) (k : result (reply_of c) -> prog A)
| Console_log (args : list value) (k : prog A)
| Console_error (args : list value) (k : prog A)
| Res (status : Z) (b : res_body) (k : prog A).
Arguments Ret {A} a.
Arguments Throw {A} e.
Arguments Stripe {A} c k.
Arguments Console_log {A} args k.
Arguments Console_error {A} args k.
Arguments Res {A} status b k.

Fixpoint bind {A B : Type} (p : prog A) (f : A -> prog B) : prog B :=
  match p with
  | Ret a => f a
  | Throw e => Throw e
  | Stripe c k => Stripe c (fun r => bind (k r) f)
  | Console_log args k => Console_log args (bind k f)
  | Console_error args k => Console_error args (bind k f)
  | Res status b k => Res status b (bind k f)
  end.

(** [try { p } catch (error) { h error }] *)
Fixpoint try_catch {A : Type} (p : prog A) (h : error -> prog A) : prog A :=
  match p with
  | Ret a => Ret a
  | Throw e => h e
  | Stripe c k => Stripe c (fun r => try_catch (k r) h)
  | Console_log args k => Console_log args (try_catch k h)
  | Console_error args k => Console_error args (try_catch k h)
  | Res status b k => Res status b (try_catch k h)
  end.

(** [await stripe.<resource>.<method>(...)]: a rejection is thrown. *)
Definition await (c : call) : prog (reply_of c) :=
  Stripe c (fun r => match r with Fulfilled a => Ret a | Rejected e => Throw e end).

Definition console_log (args : list value) : prog unit := Console_log args (Ret tt).
Definition console_error (args : list value) : prog unit := Console_error args (Ret tt).
(** [res.status(status).json(v)]; [res.json(v)] is status 200. *)
Definition res_json (status : Z) (v : value) : prog unit := Res status (Json v) (Ret tt).
(** [res.status(status).send(text)] *)
Definition res_send (status : Z) (text : string) : prog unit := Res status (Text text) (Ret tt).

Declare Scope prog_scope.
Delimit Scope prog_scope with prog.
Notation "x <- p ;; q" := (bind p (fun x => q))
  (at level 61, p at next level, right associativity) : prog_scope.
Notation "p ;; q" := (bind p (fun _ => q))
  (at level 61, right associativity) : prog_scope.
Open Scope prog_scope.

(** ** Running a program against a processor *)

Inductive entry : Type :=
| Called (c : call) (r : result reply)
| Logged (args : list value)
| LoggedError (args : list value)
| Responded (status : Z) (b : res_body).

(** A processor: some state and an answer to every call. *)
Record processor (W : Type) : Type := Processor {
  answer : forall c : call, W -> W * result (reply_of c)
}.

Record ran (W A : Type) : Type := Ran {
  world : W;
  trace : list entry;
  returned : result A
}.

Fixpoint run {W A : Type} (P : processor W) (p : prog A) (w : W) : ran W A :=
  match p with
  | Ret a => Ran w [] (Fulfilled a)
  | Throw e => Ran w [] (Rejected e)
  | Stripe c k =>
      let (w', r) := answer P c w in
      let t := run P (k r) w' in
      Ran (world t) (Called c (outcome_in c r) :: trace t) (returned t)
  | Console_log args k =>
      let t := run P k w in Ran (world t) (Logged args :: trace t) (returned t)
  | Console_error args k =>
      let t := run P k w in Ran (world t) (LoggedError args :: trace t) (returned t)
  | Res status b k =>
      let t := run P k w in Ran (world t) (Responded status b :: trace t) (returned t)
  end.

(** The responses a run sent, in order. *)
Fixpoint responses (t : list entry) : list (Z * res_body) :=
  match t with
  | [] => []
  | Responded status b :: rest => (status, b) :: responses rest
  | _ :: rest => responses rest
  end.

(** The processor calls a run made, in order. *)
Fixpoint calls (t : list entry) : list call :=
  match t with
  | [] => []
  | Called c _ :: rest => c :: calls rest
  | _ :: rest => calls rest
  end.

(** ** The handlers *)

(** [req]: its headers, and [req.body] as the body parsers leave it, the
    parsed JSON object on the JSON routes ([{}] when nothing was parsed). *)
Record request : Type := Request {
  headers : list (string * string);
  body : value
}.

(** [table[name]] on an object whose properties are strings, as
    [req.headers] and [process.env] are: undefined when [name] is not set. *)
Fixpoint field (name : string) (table : list (string * string)) : value :=
  match table with
  | [] => VUndefined
  | (k, v) :: rest => if name =? k then VString v else field name rest
  end.

(** [o.k] where the API declares [o] nullable. *)
Definition deref {A : Type} (o : option A) (k : string) : prog A :=
  match o with
  | Some a => Ret a
  | None => Throw (null_deref k)
  end.

(** The loop of the cancellation handler:
    [for (const subscription of data) { const canceled = await
    stripe.subscriptions.cancel(subscription.id);
    canceledSubscriptions.push(canceled.id); }] *)
Fixpoint cancel_each (subscriptions : list Subscription.t)
    (canceledSubscriptions : list value) : prog (list value) :=
  match subscriptions with
  | [] => Ret canceledSubscriptions
  | subscription :: rest =>
      canceled <- await (subscriptions_cancel (Subscription.id subscription)) ;;
      cancel_each rest
        (canceledSubscriptions ++ [VString (Subscription.id canceled)])%list
  end.

Section Handlers.

(** [process.env] *)
Variable process_env : list (string * string).

(** [process.env[name]] *)
Definition getenv (name : string) : value := field name process_env.

(** [String.prototype.toUpperCase], the language's own (Unicode) upper-casing
    of a string. It is no code of the server: the handlers are embedded for
    whatever function it is. *)
Variable toUpperCase : string -> string.

(** [v.toUpperCase()] for a request field [v] named [what]: only a string
    has the method. *)
Definition method_toUpperCase (what : string) (v : value) : prog string :=
  match v with
  | VString s => Ret (toUpperCase s)
  | _ => Throw (not_a_function (what ++ ".toUpperCase"))
  end.

(** POST /create-payment-intent (the same text in both versions of the
    server). *)
Definition create_payment_intent (req : request) : prog unit :=
  try_catch
    (let priceId := prop (body req) "priceId" in
     let amount := prop (body req) "amount" in
     let currency := prop (body req) "currency" in
     let customerId := prop (body req) "customerId" in
     let customerEmail := prop (body req) "customerEmail" in
     customer <-
       (if truthy customerId then
          customers <- await (customers_list
            (VObject [("email", customerEmail); ("limit", VNumber 1)])) ;;
          match ApiList.data customers with
          | first :: _ => Ret first
          | [] =>
              await (customers_create
                (VObject [("email", customerEmail);
                          ("metadata", VObject [("eventer_user_id", customerId)])]))
          end
        else
          await (customers_create (VObject [("email", customerEmail)]))) ;;
     ephemeralKey <- await (ephemeralKeys_create
       (VObject [("customer", VString (Customer.id customer))])
       (VObject [("apiVersion", VString "2023-10-16")])) ;;
     paymentIntent <- await (paymentIntents_create
       (VObject [("amount", amount);
                 ("currency", js_or currency (VString "usd"));
                 ("customer", VString (Customer.id customer));
                 ("metadata", VObject [("price_id", priceId);
                                       ("eventer_user_id", customerId)]);
                 ("automatic_payment_methods", VObject [("enabled", VBool true)])])) ;;
     res_json 200
       (VObject [("paymentIntent", VString (PaymentIntent.client_secret paymentIntent));
                 ("ephemeralKey", VString (EphemeralKey.secret ephemeralKey));
                 ("customer", VString (Customer.id customer));
                 ("publishableKey", getenv "EXPO_PUBLIC_STRIPE_PUBLISHABLE_KEY")]))
    (fun error =>
       console_error [VString "Error creating payment intent:"; error_value error] ;;
       res_json 500 (VObject [("error", VString (message error))])).

(** POST /validate-promo *)
Definition validate_promo (req : request) : prog unit :=
  try_catch
    (let promoCode := prop (body req) "promoCode" in
     if negb (truthy promoCode) then
       res_json 400 (VObject [("valid", VBool false);
                              ("error", VString "Promo code is required")])
     else
       code <- method_toUpperCase "promoCode" promoCode ;;
       promotionCodes <- await (promotionCodes_list
         (VObject [("code", VString code); ("active", VBool true);
                   ("limit", VNumber 1)])) ;;
       match ApiList.data promotionCodes with
       | [] => res_json 200 (VObject [("valid", VBool false)])
       | promoCodeObj :: _ =>
           let coupon := PromotionCode.coupon promoCodeObj in
           res_json 200
             (VObject [("valid", VBool true);
                       ("promoCodeId", VString (PromotionCode.id promoCodeObj));
                       ("percentOff", Coupon.percent_off coupon);
                       ("amountOff", Coupon.amount_off coupon);
                       ("duration", Coupon.duration coupon);
                       ("durationInMonths", Coupon.duration_in_months coupon)])
       end)
    (fun error =>
       console_error [VString "Error validating promo code:"; error_value error] ;;
       res_json 500 (VObject [("valid", VBool false);
                              ("error", VString (message error))])).

(** POST /create-subscription *)
Definition create_subscription (req : request) : prog unit :=
  try_catch
    (let priceId := prop (body req) "priceId" in
     let customerEmail := prop (body req) "customerEmail" in
     let customerId := prop (body req) "customerId" in
     let promoCode := prop (body req) "promoCode" in
     customers <- await (customers_list
       (VObject [("email", customerEmail); ("limit", VNumber 1)])) ;;
     customer <-
       match ApiList.data customers with
       | first :: _ => Ret first
       | [] =>
           await (customers_create
             (VObject [("email", customerEmail);
                       ("metadata", VObject [("eventer_user_id", customerId)])]))
       end ;;
     ephemeralKey <- await (ephemeralKeys_create
       (VObject [("customer", VString (Customer.id customer))])
       (VObject [("apiVersion", VString "2023-10-16")])) ;;
     let subscriptionOptions :=
       [("customer", VString (Customer.id customer));
        ("items", VArray [VObject [("price", priceId)]]);
        ("payment_behavior", VString "default_incomplete");
        ("payment_settings",
         VObject [("save_default_payment_method", VString "on_subscription")]);
        ("expand", VArray [VString "latest_invoice.payment_intent"]);
        ("metadata", VObject [("eventer_user_id", customerId)])] in
     subscriptionOptions <-
       (if truthy promoCode then
          code <- method_toUpperCase "promoCode" promoCode ;;
          promotionCodes <- await (promotionCodes_list
            (VObject [("code", VString code); ("active", VBool true);
                      ("limit", VNumber 1)])) ;;
          match ApiList.data promotionCodes with
          | first :: _ =>
              Ret (assign "promotion_code" (VString (PromotionCode.id first))
                     subscriptionOptions)
          | [] => Ret subscriptionOptions
          end
        else Ret subscriptionOptions) ;;
     subscription <- await (subscriptions_create (VObject subscriptionOptions)) ;;
     latest_invoice <- deref (Subscription.latest_invoice subscription) "payment_intent" ;;
     payment_intent <- deref (Invoice.payment_intent latest_invoice) "client_secret" ;;
     res_json 200
       (VObject [("subscriptionId", VString (Subscription.id subscription));
                 ("paymentIntent", VString (PaymentIntent.client_secret payment_intent));
                 ("ephemeralKey", VString (EphemeralKey.secret ephemeralKey));
                 ("customer", VString (Customer.id customer))]))
    (fun error =>
       console_error [VString "Error creating subscription:"; error_value error] ;;
       res_json 500 (VObject [("error", VString (message error))])).

(** POST /cancel-subscription *)
Definition cancel_subscription (req : request) : prog unit :=
  try_catch
    (let customerId := prop (body req) "customerId" in
     if negb (truthy customerId) then
       res_json 400 (VObject [("error", VString "Customer ID is required")])
     else
       subscriptions <- await (subscriptions_list
         (VObject [("customer", customerId); ("status", VString "active");
                   ("limit", VNumber 10)])) ;;
       if (List.length (ApiList.data subscriptions) =? 0)%nat then
         res_json 404 (VObject [("error", VString "No active subscription found")])
       else
         canceledSubscriptions <- cancel_each (ApiList.data subscriptions) [] ;;
         res_json 200 (VObject [("success", VBool true);
                                ("canceledSubscriptions", VArray canceledSubscriptions)]))
    (fun error =>
       console_error [VString "Error canceling subscription:"; error_value error] ;;
       res_json 500 (VObject [("error", VString (message error))])).

(** The [switch (event.type)] of the webhook route; every branch only
    writes a line to the console. *)
Definition dispatch (event : Event.t) : prog unit :=
  let type := Event.type event in
  if type =? "payment_intent.succeeded" then
    let paymentIntent := Event.data_object event in
    console_log [VString "Payment succeeded:"; lookup "id" paymentIntent]
  else if (type =? "customer.subscription.created")
       || (type =? "customer.subscription.updated") then
    let subscription := Event.data_object event in
    console_log [VString "Subscription updated:"; lookup "id" subscription;
                 lookup "status" subscription]
  else if type =? "customer.subscription.deleted" then
    let canceledSubscription := Event.data_object event in
    console_log [VString "Subscription canceled:"; lookup "id" canceledSubscription]
  else
    console_log [VString ("Unhandled event type: " ++ type)].

(** POST /webhook (the same text in both versions of the server).
    [constructEvent] is the only statement of its [try]; its [catch]
    returns from the handler. *)
Definition webhook (req : request) : prog unit :=
  let sig := field "stripe-signature" (headers req) in
  let endpointSecret := getenv "STRIPE_WEBHOOK_SECRET" in
  Stripe (webhooks_constructEvent (body req) sig endpointSecret)
    (fun constructed =>
       match constructed with
       | Rejected err =>
           console_error [VString "Webhook signature verification failed:";
                          VString (message err)] ;;
           res_send 400 ("Webhook Error: " ++ message err)
       | Fulfilled event =>
           dispatch event ;;
           res_json 200 (VObject [("received", VBool true)])
       end).

End Handlers.

(** ** A reference processor

    An in-memory processor with the documented behaviour of the calls the
    server makes: lists are newest first and cut at [limit], customers are
    looked up by exact email, promotion codes by exact code and activity,
    identifiers are fresh, a subscription under a 100%-off coupon opens
    with an invoice that has no payment intent, and a webhook payload is
    accepted when it is one of the signed deliveries.  It gives the
    executions the statements below are tried on. *)
Module Reference.

Record world : Type := World {
  customers : list Customer.t;
  promotion_codes : list PromotionCode.t;
  subscriptions : list Subscription.t;
  created : nat;
  (** subscriptions whose cancellation the processor refuses *)
  refused : list string;
  (** payload, signature header, secret and the event they carry *)
  deliveries : list (list Byte.byte * string * string * Event.t)
}.

Definition fresh (prefix : string) (w : world) : string :=
  prefix ++ NilEmpty.string_of_uint (Nat.to_uint (created w)).

Definition invalid (what : string) : error :=
  Error "StripeInvalidRequestError" what.

Definition page {A : Type} (limit : Z) (l : list A) : ApiList.t A :=
  ApiList.Make (firstn (Z.to_nat limit) l) (Z.to_nat limit <? List.length l)%nat.

Definition has_email (e : string) (c : Customer.t) : bool :=
  match Customer.email c with
  | VString e' => e =? e'
  | _ => false
  end.

Definition list_customers (params : value) (w : world)
  : result (ApiList.t Customer.t) :=
  match prop params "email", prop params "limit" with
  | VString e, VNumber n => Fulfilled (page n (filter (has_email e) (customers w)))
  | VUndefined, VNumber n => Fulfilled (page n (customers w))
  | _, _ => Rejected (invalid "Invalid string")
  end.

Definition create_customer (params : value) (w : world)
  : world * result Customer.t :=
  match prop params "email" with
  | VString _ | VUndefined =>
      let c := Customer.Make (fresh "cus_" w) (prop params "email")
                 (prop params "metadata") in
      (World (c :: customers w) (promotion_codes w) (subscriptions w)
         (S (created w)) (refused w) (deliveries w),
       Fulfilled c)
  | _ => (w, Rejected (invalid "Invalid string"))
  end.

Definition bump (w : world) : world :=
  World (customers w) (promotion_codes w) (subscriptions w)
    (S (created w)) (refused w) (deliveries w).

Definition create_ephemeral_key (params : value) (w : world)
  : world * result EphemeralKey.t :=
  match prop params "customer" with
  | VString _ =>
      (bump w, Fulfilled (EphemeralKey.Make (fresh "ephkey_" w) (fresh "ek_test_" w)))
  | _ => (w, Rejected (invalid "Invalid string"))
  end.

Definition new_payment_intent (w : world) (amount currency customer : value)
  : PaymentIntent.t :=
  PaymentIntent.Make (fresh "pi_" w) (fresh "pi_" w ++ "_secret_" ++ fresh "" w)
    amount currency customer.

Definition create_payment_intent (params : value) (w : world)
  : world * result PaymentIntent.t :=
  match prop params "amount", prop params "currency" with
  | VNumber n, VString cur =>
      if (0 <? n)%Z && negb (cur =? "") then
        (bump w, Fulfilled (new_payment_intent w (VNumber n) (VString cur)
                              (prop params "customer")))
      else (w, Rejected (invalid "Invalid amount or currency"))
  | _, _ => (w, Rejected (invalid "Invalid amount or currency"))
  end.

Definition is_code (code : string) (active : bool) (p : PromotionCode.t) : bool :=
  (code =? PromotionCode.code p) && Bool.eqb active (PromotionCode.active p).

Definition list_promotion_codes (params : value) (w : world)
  : result (ApiList.t PromotionCode.t) :=
  match prop params "code", prop params "active", prop params "limit" with
  | VString code, VBool active, VNumber n =>
      Fulfilled (page n (filter (is_code code active) (promotion_codes w)))
  | _, _, _ => Rejected (invalid "Invalid promotion code parameters")
  end.

(** Whether the promotion code named by [promotion_code] takes 100% off. *)
Definition free_of_charge (promotion_code : value) (w : world) : bool :=
  match promotion_code with
  | VString id =>
      existsb (fun p => (id =? PromotionCode.id p) &&
                        match Coupon.percent_off (PromotionCode.coupon p) with
                        | VNumber 100 => true
                        | _ => false
                        end)
              (promotion_codes w)
  | _ => false
  end.

Definition create_subscription (params : value) (w : world)
  : world * result Subscription.t :=
  match prop params "customer" with
  | VString cus =>
      let free := free_of_charge (prop params "promotion_code") w in
      let pi := if free then None
                else Some (new_payment_intent w VUndefined (VString "usd") (VString cus)) in
      let s := Subscription.Make (fresh "sub_" w) cus
                 (if free then "active" else "incomplete")
                 (Some (Invoice.Make (fresh "in_" w) pi)) in
      (World (customers w) (promotion_codes w) (s :: subscriptions w)
         (S (created w)) (refused w) (deliveries w),
       Fulfilled s)
  | _ => (w, Rejected (invalid "Invalid string"))
  end.

Definition owned (cus status : string) (s : Subscription.t) : bool :=
  (cus =? Subscription.customer s) && (status =? Subscription.status s).

Definition list_subscriptions (params : value) (w : world)
  : result (ApiList.t Subscription.t) :=
  match prop params "customer", prop params "status", prop params "limit" with
  | VString cus, VString status, VNumber n =>
      Fulfilled (page n (filter (owned cus status) (subscriptions w)))
  | _, _, _ => Rejected (invalid "Invalid subscription parameters")
  end.

Definition canceled (s : Subscription.t) : Subscription.t :=
  Subscription.Make (Subscription.id s) (Subscription.customer s) "canceled"
    (Subscription.latest_invoice s).

Fixpoint cancel_in (id : string) (l : list Subscription.t)
  : option (Subscription.t * list Subscription.t) :=
  match l with
  | [] => None
  | s :: rest =>
      if id =? Subscription.id s then Some (canceled s, canceled s :: rest)
      else match cancel_in id rest with
           | Some (c, rest') => Some (c, s :: rest')
           | None => None
           end
  end.

Definition cancel_subscription (id : string) (w : world)
  : world * result Subscription.t :=
  if existsb (String.eqb id) (refused w) then
    (w, Rejected (Error "StripeAPIError" ("Could not cancel " ++ id)))
  else
    match cancel_in id (subscriptions w) with
    | Some (c, l) =>
        (World (customers w) (promotion_codes w) l (created w) (refused w)
           (deliveries w),
         Fulfilled c)
    | None => (w, Rejected (invalid ("No such subscription: " ++ id)))
    end.

Definition byte_list_eqb (a b : list Byte.byte) : bool :=
  if list_eq_dec Byte.byte_eq_dec a b then true else false.

Definition construct_event (payload header secret : value) (w : world)
  : result Event.t :=
  match payload, header, secret with
  | VBuffer bytes, VString sig, VString key =>
      match find (fun d => match d with
                           | (b, s, k, _) =>
                               byte_list_eqb bytes b && (sig =? s) && (key =? k)
                           end) (deliveries w) with
      | Some (_, _, _, event) => Fulfilled event
      | None =>
          Rejected (Error "StripeSignatureVerificationError"
                      "No signatures found matching the expected signature for payload")
      end
  | _, VString _, VString _ =>
      Rejected (Error "StripeSignatureVerificationError"
                  "No signatures found matching the expected signature for payload")
  | _, _, _ =>
      Rejected (Error "StripeSignatureVerificationError"
                  "Unable to extract timestamp and signatures from header")
  end.

Definition answers (c : call) : world -> world * result (reply_of c) :=
  match c as c0 return world -> world * result (reply_of c0) with
  | customers_list params => fun w => (w, list_customers params w)
  | customers_create params => create_customer params
  | ephemeralKeys_create params _ => create_ephemeral_key params
  | paymentIntents_create params => create_payment_intent params
  | promotionCodes_list params => fun w => (w, list_promotion_codes params w)
  | subscriptions_create params => create_subscription params
  | subscriptions_list params => fun w => (w, list_subscriptions params w)
  | subscriptions_cancel id => cancel_subscription id
  | webhooks_constructEvent payload header secret =>
      fun w => (w, construct_event payload header secret w)
  end.

Definition stripe : processor world := Processor answers.

End Reference.


(** ** Vocabulary of the statements *)

(** The calls the handlers make, by what they ask. *)
Definition verification (process_env : list (string * string)) (req : request) : call :=
  webhooks_constructEvent (body req) (field "stripe-signature" (headers req))
    (getenv process_env "STRIPE_WEBHOOK_SECRET").

Definition customer_lookup (email : value) : call :=
  customers_list (VObject [("email", email); ("limit", VNumber 1)]).

Definition promo_lookup (code : string) : call :=
  promotionCodes_list
    (VObject [("code", VString code); ("active", VBool true); ("limit", VNumber 1)]).

Definition active_subscriptions (customerId : value) : call :=
  subscriptions_list
    (VObject [("customer", customerId); ("status", VString "active");
              ("limit", VNumber 10)]).

(** [cancels P l w cs w']: from state [w] the processor fulfils, one after
    the other, the cancellation of every subscription of [l], answering
    with the subscriptions [cs] and ending in state [w']. *)
Inductive cancels {W : Type} (P : processor W)
  : list Subscription.t -> W -> list Subscription.t -> W -> Prop :=
| cancels_nil (w : W) : cancels P [] w [] w
| cancels_cons (s : Subscription.t) (rest : list Subscription.t) (w w1 w2 : W)
    (c : Subscription.t) (cs : list Subscription.t) :
    answer P (subscriptions_cancel (Subscription.id s)) w = (w1, Fulfilled c) ->
    cancels P rest w1 cs w2 ->
    cancels P (s :: rest) w (c :: cs) w2.

(** The record of the fulfilled cancellations of [l], answered by [cs]. *)
Fixpoint cancellations (l cs : list Subscription.t) : list entry :=
  match l, cs with
  | s :: l', c :: cs' =>
      Called (subscriptions_cancel (Subscription.id s)) (Fulfilled (ASubscription c))
      :: cancellations l' cs'
  | _, _ => []
  end.

Definition ids (l : list Subscription.t) : list value :=
  map (fun s => VString (Subscription.id s)) l.

(** Two strings that differ at most in letter case, as the language has
    it: [toUpperCase] takes both to one string, and both are empty or
    neither is. With the language's own [toUpperCase] this covers every
    alphabet it knows. *)
Definition same_ignoring_case (toUpperCase : string -> string) (s1 s2 : string) : Prop :=
  toUpperCase s1 = toUpperCase s2 /\ truthy (VString s1) = truthy (VString s2).

(** Inputs of /create-payment-intent the processor accepts: an email, a
    positive amount, and a currency that is a string or falls back to the
    default. *)
Definition valid_inputs (req : request) : bool :=
  match prop (body req) "customerEmail", prop (body req) "amount" with
  | VString _, VNumber n =>
      (0 <? n)%Z &&
      match prop (body req) "currency" with
      | VString _ => true
      | v => negb (truthy v)
      end
  | _, _ => false
  end.

(** The success body of /create-payment-intent. *)
Definition payment_sheet (process_env : list (string * string))
    (secret key customer : string) : res_body :=
  Json (VObject [("paymentIntent", VString secret);
                 ("ephemeralKey", VString key);
                 ("customer", VString customer);
                 ("publishableKey", getenv process_env "EXPO_PUBLIC_STRIPE_PUBLISHABLE_KEY")]).

Arguments Reference.fresh : simpl never.

(** ** Concrete requests and processor states *)

Module Example.

Definition post (fields : list (string * value)) : request :=
  Request [] (VObject fields).

(** A processor that has seen nothing yet. *)
Definition fresh_processor : Reference.world :=
  Reference.World [] [] [] 0 [] [].

(** A payment of 5.00 USD by a@example.com, without and with the
    application's user id. *)
Definition pay_anonymous : request :=
  post [("priceId", VString "price_monthly"); ("amount", VNumber 500);
        ("currency", VString "usd"); ("customerEmail", VString "a@example.com")].

Definition pay_as_user : request :=
  post [("priceId", VString "price_monthly"); ("amount", VNumber 500);
        ("currency", VString "usd"); ("customerId", VString "user_1");
        ("customerEmail", VString "a@example.com")].

(** The anonymous payment made twice in a row on the fresh processor. *)
Definition first_anonymous : ran Reference.world unit :=
  run Reference.stripe (create_payment_intent [] pay_anonymous) fresh_processor.

Definition second_anonymous : ran Reference.world unit :=
  run Reference.stripe (create_payment_intent [] pay_anonymous) (world first_anonymous).

(** A processor with two active promotion codes: 10% off, and 100% off. *)
Definition with_promotion_codes : Reference.world :=
  Reference.World []
    [PromotionCode.Make "promo_1" "SAVE10" true
       (Coupon.Make "co_1" (VNumber 10) VNull (VString "once") VNull);
     PromotionCode.Make "promo_2" "FREE100" true
       (Coupon.Make "co_2" (VNumber 100) VNull (VString "forever") VNull)]
    [] 0 [] [].

Definition promo (code : value) : request := post [("promoCode", code)].

Definition subscribe (code : string) : request :=
  post [("priceId", VString "price_monthly");
        ("customerEmail", VString "a@example.com");
        ("customerId", VString "user_1"); ("promoCode", VString code)].

(** A customer with three active subscriptions; the processor refuses to
    cancel the second one. *)
Definition sub (n : string) : Subscription.t :=
  Subscription.Make ("sub_" ++ n) "cus_1" "active" None.

Definition three_subscriptions (refused : list string) : Reference.world :=
  Reference.World [Customer.Make "cus_1" (VString "a@example.com") VUndefined] []
    [sub "1"; sub "2"; sub "3"] 0 refused [].

Definition cancel (customerId : value) : request := post [("customerId", customerId)].

(** A signed delivery of a [payment_intent.succeeded] event, and a request
    whose body is its payload with one byte changed. *)
Definition webhook_env : list (string * string) :=
  [("STRIPE_WEBHOOK_SECRET", "whsec_test")].

Definition paid : Event.t :=
  Event.Make "evt_1" "payment_intent.succeeded" [("id", VString "pi_1")].

Definition with_delivery : Reference.world :=
  Reference.World [] [] [] 0 []
    [([Byte.x7b; Byte.x7d], "t=1,v1=5257a869", "whsec_test", paid)].

Definition tampered : request :=
  Request [("stripe-signature", "t=1,v1=5257a869")] (VBuffer [Byte.x7b; Byte.x20; Byte.x7d]).

End Example.

(** ** Proof automation *)

(** Considers every outcome of every call of the handler under study. *)
Ltac answer_cases P :=
  repeat (cbn;
    match goal with
    | |- context [answer P ?c ?w] =>
        let w' := fresh "w" in
        let r := fresh "r" in
        let e := fresh "e" in
        destruct (answer P c w) as [w' [r|e]]
    | |- context [match ApiList.data ?l with _ => _ end] =>
        let x := fresh "x" in
        let xs := fresh "xs" in
        let m := fresh "more" in
        destruct l as [[|x xs] m]
    end).

(** Settles membership of an entry in a trace that is written out. *)
Ltac entry_cases :=
  repeat match goal with
    | H : _ \/ _ |- _ => destruct H as [H|H]
    | H : False |- _ => destruct H
    | H : Called _ _ = Called _ _ |- _ =>
        first [discriminate H | inversion H; subst; clear H]
    | H : Responded _ _ = Responded _ _ |- _ =>
        first [discriminate H | inversion H; subst; clear H]
    | H : _ = Called _ _ |- _ => discriminate H
    | H : _ = Responded _ _ |- _ => discriminate H
    end.

(** ** The rest of the server *)

(** [String(v)], as a template literal or [+] with a string applies it. *)
Fixpoint to_string (v : value) : string :=
  match v with
  | VUndefined => "undefined"
  | VNull => "null"
  | VBool true => "true"
  | VBool false => "false"
  | VNumber n => NilZero.string_of_int (Z.to_int n)
  | VString s => s
  | VArray items =>
      String.concat ","
        (map (fun item => match item with
                          | VUndefined | VNull => ""
                          | _ => to_string item
                          end) items)
  | VObject _ => "[object Object]"
  | VBuffer bytes => string_of_list_byte bytes
  end.

(** [v.length] *)
Definition js_length (v : value) : value :=
  match v with
  | VString s => VNumber (Z.of_nat (String.length s))
  | VArray items => VNumber (Z.of_nat (List.length items))
  | _ => VUndefined
  end.

Section Startup.

(** [process.env] *)
Variable process_env : list (string * string).

(** [process.env.STRIPE_SECRET_KEY || process.env.STRIPE_TEST_SECRET_KEY] *)
Definition stripeSecretKey : value :=
  js_or (field "STRIPE_SECRET_KEY" process_env)
        (field "STRIPE_TEST_SECRET_KEY" process_env).

(** [process.env.PORT || 3000] *)
Definition PORT : value := js_or (field "PORT" process_env) (VNumber 3000).

(** The callback of [app.listen]: the two lines written at startup. *)
Definition listening : prog unit :=
  console_log [VString ("Eventer payment server running on port " ++ to_string PORT)] ;;
  console_log
    [VString ("Stripe key configured: " ++
              (if truthy stripeSecretKey
               then "Yes (length: " ++ to_string (js_length stripeSecretKey) ++ ")"
               else "No"))].

End Startup.

(** The earlier version of the server, where it differs: its
    /create-subscription knows no promo code. *)
Module Earlier.

Definition create_subscription (req : request) : prog unit :=
  try_catch
    (let priceId := prop (body req) "priceId" in
     let customerEmail := prop (body req) "customerEmail" in
     let customerId := prop (body req) "customerId" in
     customers <- await (customers_list
       (VObject [("email", customerEmail); ("limit", VNumber 1)])) ;;
     customer <-
       match ApiList.data customers with
       | first :: _ => Ret first
       | [] =>
           await (customers_create
             (VObject [("email", customerEmail);
                       ("metadata", VObject [("eventer_user_id", customerId)])]))
       end ;;
     ephemeralKey <- await (ephemeralKeys_create
       (VObject [("customer", VString (Customer.id customer))])
       (VObject [("apiVersion", VString "2023-10-16")])) ;;
     subscription <- await (subscriptions_create
       (VObject [("customer", VString (Customer.id customer));
                 ("items", VArray [VObject [("price", priceId)]]);
                 ("payment_behavior", VString "default_incomplete");
                 ("payment_settings",
                  VObject [("save_default_payment_method", VString "on_subscription")]);
                 ("expand", VArray [VString "latest_invoice.payment_intent"]);
                 ("metadata", VObject [("eventer_user_id", customerId)])])) ;;
     latest_invoice <- deref (Subscription.latest_invoice subscription) "payment_intent" ;;
     payment_intent <- deref (Invoice.payment_intent latest_invoice) "client_secret" ;;
     res_json 200
       (VObject [("subscriptionId", VString (Subscription.id subscription));
                 ("paymentIntent", VString (PaymentIntent.client_secret payment_intent));
                 ("ephemeralKey", VString (EphemeralKey.secret ephemeralKey));
                 ("customer", VString (Customer.id customer))]))
    (fun error =>
       console_error [VString "Error creating subscription:"; error_value error] ;;
       res_json 500 (VObject [("error", VString (message error))])).

End Earlier.

(** ** The body parsers in front of /webhook

    Line 15 installs [express.json()] for every route, and the webhook
    route puts [express.raw({ type: 'application/json' })] in front of its
    handler (line 226 of the server, line 136 of its earlier version).
    Both parsers are the framework's, and follow one protocol: a parser
    leaves a request alone when an earlier parser has read its body (the
    mark [req._body]) or when the request has no body of the parser's media
    type; otherwise it reads the body, sets the mark and sets [req.body].
    The two parsers of the server select the same media type. *)

(** A request as it arrives: its headers and the bytes of its body. *)
Record incoming : Type := Incoming {
  incoming_headers : list (string * string);
  incoming_bytes : list Byte.byte
}.

(** What the JSON parser yields: it is strict, and accepts an object or an
    array only. *)
Inductive parsed : Type :=
| AnObject (props : list (string * value))
| AnArray (items : list value).

Definition parsed_value (j : parsed) : value :=
  match j with
  | AnObject props => VObject props
  | AnArray items => VArray items
  end.

(** [req.body] and the mark [req._body], between two middlewares. *)
Record parsing : Type := Parsing {
  req_body : value;
  _body : bool
}.

(** The two lines of the framework: a parser of the first sets
    [req.body = req.body || {}] before it decides to skip a request, a
    parser of the second leaves [req.body] as it is. *)
Inductive framework : Type := Express4 | Express5.

(** The payloads [constructEvent] can verify a signature over: the bytes
    of the body, or their text. *)
Definition is_raw (payload : value) : bool :=
  match payload with
  | VBuffer _ | VString _ => true
  | _ => false
  end.

(** A processor that verifies nothing but raw payloads. *)
Definition verifies_raw_only {W : Type} (P : processor W) : Prop :=
  forall (payload header secret : value) (w : W),
    is_raw payload = false ->
    exists (w' : W) (err : error),
      answer P (webhooks_constructEvent payload header secret) w = (w', Rejected err).

Section BodyParsers.

Variable express : framework.

(** Whether the request has a body of media type [application/json]: the
    test of [express.json()], whose default type it is, and of
    [express.raw({ type: 'application/json' })]. *)
Variable is_json : incoming -> bool.

(** Reading the body and parsing it as JSON, and reading it as bytes;
    either can fail (a syntax error, a body over the limit). *)
Variable json_body : incoming -> result parsed.
Variable raw_body : incoming -> result (list Byte.byte).

(** [req.body] of a request that a parser skips. *)
Definition skipped (b : value) : value :=
  match express with
  | Express4 => js_or b (VObject [])
  | Express5 => b
  end.

(** [express.json()]. An error goes to the framework's error handling, and
    the route is not entered. *)
Definition express_json (i : incoming) (p : parsing) : prog parsing :=
  if _body p then Ret p
  else if is_json i then
    match json_body i with
    | Fulfilled j => Ret (Parsing (parsed_value j) true)
    | Rejected e => Throw e
    end
  else Ret (Parsing (skipped (req_body p)) false).

(** [express.raw({ type: 'application/json' })] *)
Definition express_raw (i : incoming) (p : parsing) : prog parsing :=
  if _body p then Ret p
  else if is_json i then
    match raw_body i with
    | Fulfilled bytes => Ret (Parsing (VBuffer bytes) true)
    | Rejected e => Throw e
    end
  else Ret (Parsing (skipped (req_body p)) false).

Variable process_env : list (string * string).

(** A POST to /webhook, from its arrival: [express.json()] of line 15,
    then the parser and the handler of the route. ([cors()] of line 14 lets
    every POST through and does not touch its body.) *)
Definition post_webhook (i : incoming) : prog unit :=
  p <- express_json i (Parsing VUndefined false) ;;
  p <- express_raw i p ;;
  webhook process_env (Request (incoming_headers i) (req_body p)).

End BodyParsers.

(** ** More vocabulary *)

(** A run that returns normally and whose last act is its one response,
    with a status among [statuses]. *)
Definition responds_once {W : Type} (statuses : list Z) (t : ran W unit) : Prop :=
  returned t = Fulfilled tt /\
  exists before status b,
    trace t = (before ++ [Responded status b])%list /\
    responses before = [] /\
    In status statuses.

(** A stretch of a run in which the processor fulfilled every call and
    nothing else happened. *)
Definition only_fulfilled (t : list entry) : Prop :=
  Forall (fun en => exists c r, en = Called c (Fulfilled r)) t.

(** Splits a written-out trace before its last entries. *)
Ltac split_trace :=
  lazymatch goal with
  | |- exists before, ?l = (before ++ ?s)%list /\ _ =>
      exists (firstn (List.length l - List.length s) l); split; [reflexivity|]
  end.

(** Splits a written-out trace before the response that ends it. *)
Ltac last_response :=
  lazymatch goal with
  | |- exists before status b, ?l = (before ++ [Responded status b])%list /\ _ =>
      exists (removelast l); cbn; do 2 eexists; split; [reflexivity|]
  end.

(** A run that a rejected call [c] ended: only fulfilled calls before it,
    then the error on the console under [label] and the 500 that [answer]
    makes of it, and nothing after. *)
Definition aborted_by (label : string) (answer : error -> value)
    (c : call) (e : error) (t : list entry) : Prop :=
  exists before,
    t = (before ++ [Called c (Rejected e);
                    LoggedError [VString label; error_value e];
                    Responded 500 (Json (answer e))])%list /\
    only_fulfilled before.

(** [{error: error.message}] *)
Definition error_body (e : error) : value :=
  VObject [("error", VString (message e))].

(** [{valid: false, error: error.message}] *)
Definition invalid_body (e : error) : value :=
  VObject [("valid", VBool false); ("error", VString (message e))].

(** The success body of /validate-promo for a promotion code. *)
Definition promo_terms (p : PromotionCode.t) : value :=
  VObject [("valid", VBool true);
           ("promoCodeId", VString (PromotionCode.id p));
           ("percentOff", Coupon.percent_off (PromotionCode.coupon p));
           ("amountOff", Coupon.amount_off (PromotionCode.coupon p));
           ("duration", Coupon.duration (PromotionCode.coupon p));
           ("durationInMonths", Coupon.duration_in_months (PromotionCode.coupon p))].

(** The reference processor with other subscriptions. *)
Definition with_subscriptions (w : Reference.world) (l : list Subscription.t)
  : Reference.world :=
  Reference.World (Reference.customers w) (Reference.promotion_codes w) l
    (Reference.created w) (Reference.refused w) (Reference.deliveries w).

(** [l] after the cancellation of its first [n] subscriptions that satisfy
    [f]. *)
Fixpoint cancel_first (n : nat) (f : Subscription.t -> bool)
    (l : list Subscription.t) : list Subscription.t :=
  match n, l with
  | O, _ => l
  | _, [] => []
  | S n', s :: rest =>
      if f s then Reference.canceled s :: cancel_first n' f rest
      else s :: cancel_first n f rest
  end.

(** ** More concrete requests and processor states *)

Module Sample.

(** A payment request that names no amount. *)
Definition no_amount : request :=
  Example.post [("customerId", VString "user_1");
                ("customerEmail", VString "a@example.com")].

(** A processor that knows a@example.com, as a customer of another user. *)
Definition known_customer : Customer.t :=
  Customer.Make "cus_9" (VString "a@example.com")
    (VObject [("eventer_user_id", VString "user_7")]).

Definition with_customer : Reference.world :=
  Reference.World [known_customer] [] [] 0 [] [].

(** A promo code sent as a number. *)
Definition numeric_promo : request :=
  Example.post [("priceId", VString "price_monthly");
                ("customerEmail", VString "a@example.com");
                ("promoCode", VNumber 10)].

(** A processor whose only code SAVE10 is no longer active. *)
Definition with_inactive_code : Reference.world :=
  Reference.World []
    [PromotionCode.Make "promo_1" "SAVE10" false
       (Coupon.Make "co_1" (VNumber 10) VNull (VString "once") VNull)]
    [] 0 [] [].

(** A customer with eleven active subscriptions. *)
Definition eleven : list Subscription.t :=
  map Example.sub ["1"; "2"; "3"; "4"; "5"; "6"; "7"; "8"; "9"; "10"; "11"].

Definition eleven_subscriptions : Reference.world :=
  Reference.World [Customer.Make "cus_1" (VString "a@example.com") VUndefined] []
    eleven 0 [] [].

(** Two environments: a live key, and a test key of the same length. *)
Definition live_env : list (string * string) :=
  [("STRIPE_SECRET_KEY", "sk_live_1234"); ("STRIPE_TEST_SECRET_KEY", "sk_test_1")].

Definition test_env : list (string * string) :=
  [("STRIPE_SECRET_KEY", ""); ("STRIPE_TEST_SECRET_KEY", "sk_test_abcd")].

(** The framework's parts, as far as a delivery needs them: the media type
    is read off the content-type header, the JSON parser knows the empty
    object, and bodies are read whole. *)
Definition json_content (i : incoming) : bool :=
  match field "content-type" (incoming_headers i) with
  | VString type => type =? "application/json"
  | _ => false
  end.

Definition parse_empty_object (i : incoming) : result parsed :=
  if Reference.byte_list_eqb (incoming_bytes i) [Byte.x7b; Byte.x7d]
  then Fulfilled (AnObject [])
  else Rejected (Error "SyntaxError" "Unexpected token in JSON").

Definition whole_body (i : incoming) : result (list Byte.byte) :=
  Fulfilled (incoming_bytes i).

(** The delivery that [Example.with_delivery] holds, as the processor
    posts it: the signed bytes, their signature and the JSON media type. *)
Definition signed_delivery : incoming :=
  Incoming [("content-type", "application/json");
            ("stripe-signature", "t=1,v1=5257a869")]
    [Byte.x7b; Byte.x7d].

(** The request the handler would be given if the route's own parser read
    the body. *)
Definition raw_request (i : incoming) : request :=
  Request (incoming_headers i) (VBuffer (incoming_bytes i)).

End Sample.
(** ** Facts about runs *)

Lemma run_bind {W A B : Type} (P : processor W) (p : prog A) (f : A -> prog B) (w : W) :
  run P (bind p f) w =
  match returned (run P p w) with
  | Fulfilled a =>
      let t := run P (f a) (world (run P p w)) in
      Ran (world t) (trace (run P p w) ++ trace t)%list (returned t)
  | Rejected e => Ran (world (run P p w)) (trace (run P p w)) (Rejected e)
  end.
Proof.
  revert w; induction p as [a|e|c k IH|args k IH|args k IH|status b k IH]; intro w; cbn.
  - destruct (run P (f a) w); reflexivity.
  - reflexivity.
  - destruct (answer P c w) as [w' r]. rewrite IH.
    destruct (run P (k r) w') as [w2 t2 [a|e]]; reflexivity.
  - rewrite IH. destruct (run P k w) as [w2 t2 [a|e]]; reflexivity.
  - rewrite IH. destruct (run P k w) as [w2 t2 [a|e]]; reflexivity.
  - rewrite IH. destruct (run P k w) as [w2 t2 [a|e]]; reflexivity.
Qed.

Lemma run_try_catch {W A : Type} (P : processor W) (p : prog A) (h : error -> prog A) (w : W) :
  run P (try_catch p h) w =
  match returned (run P p w) with
  | Fulfilled a => run P p w
  | Rejected e =>
      let t := run P (h e) (world (run P p w)) in
      Ran (world t) (trace (run P p w) ++ trace t)%list (returned t)
  end.
Proof.
  revert w; induction p as [a|e|c k IH|args k IH|args k IH|status b k IH]; intro w; cbn.
  - reflexivity.
  - destruct (run P (h e) w); reflexivity.
  - destruct (answer P c w) as [w' r]. rewrite IH.
    destruct (run P (k r) w') as [w2 t2 [a|e]]; reflexivity.
  - rewrite IH. destruct (run P k w) as [w2 t2 [a|e]]; reflexivity.
  - rewrite IH. destruct (run P k w) as [w2 t2 [a|e]]; reflexivity.
  - rewrite IH. destruct (run P k w) as [w2 t2 [a|e]]; reflexivity.
Qed.

Lemma responses_app (s t : list entry) :
  responses (s ++ t) = (responses s ++ responses t)%list.
Proof.
  induction s as [|[c r|args|args|status b] s IH]; cbn; rewrite ?IH; reflexivity.
Qed.

Lemma calls_app (s t : list entry) : calls (s ++ t) = (calls s ++ calls t)%list.
Proof.
  induction s as [|[c r|args|args|status b] s IH]; cbn; rewrite ?IH; reflexivity.
Qed.

(** Every branch of the webhook's switch writes exactly one console line
    and does nothing else. *)
Lemma dispatch_logs (event : Event.t) :
  exists line, dispatch event = console_log line.
Proof.
  unfold dispatch.
  destruct (Event.type event =? "payment_intent.succeeded"); [eauto|].
  destruct ((Event.type event =? "customer.subscription.created")
            || (Event.type event =? "customer.subscription.updated")); [eauto|].
  destruct (Event.type event =? "customer.subscription.deleted"); eauto.
Qed.

(** ** Missing fields and promo codes without a match *)

Section Validation.

Context {W : Type} (P : processor W).

(** The language's [toUpperCase]; the statements hold whatever it is. *)
Variable toUpperCase : string -> string.

(** C10. The missing-field checks are JavaScript falsiness: a [promoCode]
    or [customerId] that is falsy (absent, null, false, 0 or the empty
    string) makes /validate-promo, respectively /cancel-subscription,
    answer 400 and nothing else happens: no processor call is made and
    the processor's state is untouched. *)
Theorem falsy_field_is_missing (w : W) (req : request) :
  (truthy (prop (body req) "promoCode") = false ->
   run P (validate_promo toUpperCase req) w =
   Ran w [Responded 400 (Json (VObject [("valid", VBool false);
                                        ("error", VString "Promo code is required")]))]
     (Fulfilled tt)) /\
  (truthy (prop (body req) "customerId") = false ->
   run P (cancel_subscription req) w =
   Ran w [Responded 400 (Json (VObject [("error", VString "Customer ID is required")]))]
     (Fulfilled tt)).
Proof.
  split; intro H.
  - unfold validate_promo. rewrite H. reflexivity.
  - unfold cancel_subscription. rewrite H. reflexivity.
Qed.

(** C5. /validate-promo without a promo code answers 400 and never 200;
    with a promo code (a non-empty string) whose uppercased value the
    processor matches with no active promotion code it answers 200 with
    [{valid: false}]; the two outcomes differ. *)
Theorem validate_promo_missing_or_unmatched (w : W) (req : request) :
  (prop (body req) "promoCode" = VUndefined ->
   responses (trace (run P (validate_promo toUpperCase req) w))
   = [(400%Z, Json (VObject [("valid", VBool false);
                             ("error", VString "Promo code is required")]))]) /\
  (forall (s : string) (w' : W) (more : bool),
     prop (body req) "promoCode" = VString s ->
     s <> "" ->
     answer P (promo_lookup (toUpperCase s)) w
     = (w', Fulfilled (ApiList.Make [] more)) ->
     responses (trace (run P (validate_promo toUpperCase req) w))
     = [(200%Z, Json (VObject [("valid", VBool false)]))]).
Proof.
  split.
  - intro H. unfold validate_promo. rewrite H. reflexivity.
  - intros s w' more H Hs Hans. unfold validate_promo. rewrite H.
    assert (Ht : truthy (VString s) = true).
    { cbn. destruct (String.eqb_spec s ""); [contradiction|reflexivity]. }
    rewrite Ht. unfold promo_lookup in Hans. cbn. rewrite Hans. reflexivity.
Qed.

End Validation.

(** ** The webhook route *)

Section Webhook.

Context {W : Type} (P : processor W).
Variable process_env : list (string * string).

(** C3. When signature verification fails, the webhook route answers 400
    with the failure reason, once; no branch of the dispatch runs (no
    console line is written) and [{received: true}] is not sent. *)
Theorem webhook_rejects_unverified (w w' : W) (req : request) (err : error) :
  answer P (verification process_env req) w = (w', Rejected err) ->
  let t := trace (run P (webhook process_env req) w) in
  t = [Called (verification process_env req) (Rejected err);
       LoggedError [VString "Webhook signature verification failed:";
                    VString (message err)];
       Responded 400 (Text ("Webhook Error: " ++ message err))] /\
  responses t = [(400%Z, Text ("Webhook Error: " ++ message err))] /\
  (forall line, ~ In (Logged line) t) /\
  ~ In (Responded 200 (Json (VObject [("received", VBool true)]))) t.
Proof.
  intros H t. subst t. unfold verification in *. cbn. rewrite H. cbn.
  repeat split.
  - intros line [F|[F|[F|[]]]]; discriminate F.
  - intros [F|[F|[F|[]]]]; discriminate F.
Qed.

End Webhook.


(** ** Cancellation *)

Section Cancellation.

Context {W : Type} (P : processor W).

Lemma cancels_length (l cs : list Subscription.t) (w w' : W) :
  cancels P l w cs w' -> List.length cs = List.length l.
Proof.
  induction 1; cbn; congruence.
Qed.

Lemma calls_cancellations (l cs : list Subscription.t) :
  List.length cs = List.length l ->
  calls (cancellations l cs) = map (fun s => subscriptions_cancel (Subscription.id s)) l.
Proof.
  revert cs; induction l as [|s l IH]; intros [|c cs] H; cbn in *;
    try reflexivity; try discriminate.
  f_equal. apply IH. congruence.
Qed.

Lemma responses_cancellations (l cs : list Subscription.t) :
  responses (cancellations l cs) = [].
Proof.
  revert cs; induction l as [|s l IH]; intros [|c cs]; cbn; auto.
Qed.

(** The loop when every cancellation is fulfilled. *)
Lemma run_cancel_each (l cs : list Subscription.t) (w w' : W) :
  cancels P l w cs w' ->
  forall acc,
    run P (cancel_each l acc) w
    = Ran w' (cancellations l cs) (Fulfilled (acc ++ ids cs)%list).
Proof.
  induction 1 as [w|s rest w w1 w2 c cs Hans Hrest IH]; intro acc; cbn.
  - rewrite app_nil_r. reflexivity.
  - rewrite Hans. cbn. rewrite IH. cbn. rewrite <- app_assoc. reflexivity.
Qed.

(** The loop when a cancellation is rejected: it stops there. *)
Lemma run_cancel_each_rejected (before after cs : list Subscription.t)
    (s : Subscription.t) (e : error) (w w1 w2 : W) :
  cancels P before w cs w1 ->
  answer P (subscriptions_cancel (Subscription.id s)) w1 = (w2, Rejected e) ->
  forall acc,
    run P (cancel_each (before ++ s :: after) acc) w
    = Ran w2 (cancellations before cs
              ++ [Called (subscriptions_cancel (Subscription.id s)) (Rejected e)])%list
        (Rejected e).
Proof.
  induction 1 as [w|s0 rest w w1 w2' c cs Hans Hrest IH]; intros Hrej acc; cbn.
  - rewrite Hrej. reflexivity.
  - rewrite Hans. cbn. rewrite (IH Hrej). reflexivity.
Qed.

(** What the handler does once the listing is answered with a non-empty
    page: it runs the loop. *)
Lemma run_cancel_subscription_listed (w w1 : W) (req : request)
    (page : ApiList.t Subscription.t) :
  truthy (prop (body req) "customerId") = true ->
  answer P (active_subscriptions (prop (body req) "customerId")) w
  = (w1, Fulfilled page) ->
  ApiList.data page <> [] ->
  run P (cancel_subscription req) w =
  let loop := run P (cancel_each (ApiList.data page) []) w1 in
  let listed := Called (active_subscriptions (prop (body req) "customerId"))
                  (Fulfilled (Subscriptions page)) in
  match returned loop with
  | Fulfilled canceledSubscriptions =>
      Ran (world loop)
        (listed :: trace loop
         ++ [Responded 200
               (Json (VObject [("success", VBool true);
                               ("canceledSubscriptions", VArray canceledSubscriptions)]))])%list
        (Fulfilled tt)
  | Rejected e =>
      Ran (world loop)
        (listed :: trace loop
         ++ [LoggedError [VString "Error canceling subscription:"; error_value e];
             Responded 500 (Json (VObject [("error", VString (message e))]))])%list
        (Fulfilled tt)
  end.
Proof.
  intros Ht Hans Hne. unfold cancel_subscription, active_subscriptions in *.
  rewrite Ht. cbn. rewrite Hans. cbn.
  destruct (ApiList.data page) as [|s rest] eqn:E; [contradiction|]. cbn [List.length Nat.eqb].
  rewrite run_try_catch, run_bind.
  destruct (run P (cancel_each (s :: rest) []) w1) as [w2 t2 [a|e]]; cbn.
  - reflexivity.
  - reflexivity.
Qed.

(** C6. /cancel-subscription: without a customer id the answer is 400; for
    a customer id whose active subscriptions the processor lists (the page
    of at most 10 of those the customer owns), owning none gives 404, and
    owning N of them, 1 <= N <= 10, gives the success response with exactly
    N cancelled ids, after one cancellation call per listed subscription,
    in order, each fulfilled by the processor. *)
Theorem cancel_subscription_outcomes (w : W) (req : request) :
  let customerId := prop (body req) "customerId" in
  let t := run P (cancel_subscription req) w in
  (customerId = VUndefined ->
   responses (trace t)
   = [(400%Z, Json (VObject [("error", VString "Customer ID is required")]))]) /\
  (truthy customerId = true ->
   forall (owned : list Subscription.t) (more : bool) (w1 : W),
     answer P (active_subscriptions customerId) w
     = (w1, Fulfilled (ApiList.Make (firstn 10 owned) more)) ->
     (List.length owned = 0%nat ->
      responses (trace t)
      = [(404%Z, Json (VObject [("error", VString "No active subscription found")]))]) /\
     ((1 <= List.length owned <= 10)%nat ->
      forall (cs : list Subscription.t) (w2 : W),
        cancels P owned w1 cs w2 ->
        responses (trace t)
        = [(200%Z, Json (VObject [("success", VBool true);
                                  ("canceledSubscriptions", VArray (ids cs))]))] /\
        List.length (ids cs) = List.length owned /\
        calls (trace t)
        = active_subscriptions customerId
          :: map (fun s => subscriptions_cancel (Subscription.id s)) owned /\
        world t = w2)).
Proof.
  intros customerId t. subst customerId t. split.
  - intro H. unfold cancel_subscription. rewrite H. reflexivity.
  - intros Ht owned more w1 Hans. split.
    + intro H0. destruct owned; [|discriminate H0].
      unfold cancel_subscription, active_subscriptions in *.
      rewrite Ht. cbn. cbn in Hans. rewrite Hans. reflexivity.
    + intros [H1 H10] cs w2 Hcs.
      rewrite firstn_all2 in Hans by exact H10.
      rewrite (@run_cancel_subscription_listed w w1 req _ Ht Hans)
        by (cbn; destruct owned; [cbn in H1; lia | discriminate]).
      cbn [ApiList.data]. rewrite (run_cancel_each Hcs []). cbn.
      pose proof (cancels_length Hcs) as Hlen.
      repeat split.
      * rewrite responses_app, responses_cancellations. reflexivity.
      * unfold ids. rewrite length_map. exact Hlen.
      * rewrite calls_app, calls_cancellations by exact Hlen. cbn.
        rewrite app_nil_r. reflexivity.
Qed.

(** C7. /cancel-subscription is not atomic: when the processor rejects the
    cancellation of the k-th listed subscription, the k-1 cancellations
    before it were made and fulfilled, no call is made for that
    subscription again or for any later one, the processor is left in the
    state of the rejected call, and the answer is 500 with the error. *)
Theorem cancel_subscription_stops_at_rejection (w w1 w2 w3 : W) (req : request)
    (before after cs : list Subscription.t) (s : Subscription.t)
    (more : bool) (e : error) :
  let customerId := prop (body req) "customerId" in
  let listed := ApiList.Make (before ++ s :: after)%list more in
  truthy customerId = true ->
  answer P (active_subscriptions customerId) w = (w1, Fulfilled listed) ->
  cancels P before w1 cs w2 ->
  answer P (subscriptions_cancel (Subscription.id s)) w2 = (w3, Rejected e) ->
  let t := run P (cancel_subscription req) w in
  trace t
  = (Called (active_subscriptions customerId) (Fulfilled (Subscriptions listed))
     :: cancellations before cs
     ++ [Called (subscriptions_cancel (Subscription.id s)) (Rejected e);
         LoggedError [VString "Error canceling subscription:"; error_value e];
         Responded 500 (Json (VObject [("error", VString (message e))]))])%list /\
  calls (trace t)
  = (active_subscriptions customerId
     :: map (fun s => subscriptions_cancel (Subscription.id s)) before
     ++ [subscriptions_cancel (Subscription.id s)])%list /\
  responses (trace t)
  = [(500%Z, Json (VObject [("error", VString (message e))]))] /\
  world t = w3.
Proof.
  intros customerId listed Ht Hans Hcs Hrej t. subst customerId listed t.
  rewrite (@run_cancel_subscription_listed w w1 req _ Ht Hans)
    by (cbn; destruct before; discriminate).
  cbn [ApiList.data]. rewrite (@run_cancel_each_rejected before after cs s e w1 w2 w3 Hcs Hrej []). cbn.
  pose proof (cancels_length Hcs) as Hlen.
  repeat split.
  - rewrite <- app_assoc. reflexivity.
  - rewrite !calls_app, calls_cancellations by exact Hlen. cbn.
    rewrite <- app_assoc. reflexivity.
  - rewrite !responses_app, responses_cancellations. reflexivity.
Qed.

End Cancellation.

(** ** Promo codes are looked up in upper case *)

Section UpperCase.

(** The language's [toUpperCase]; the statements hold whatever it is. *)
Variable toUpperCase : string -> string.

(** The promo code reaches the programs of /validate-promo and
    /create-subscription through its truthiness and its upper-case form
    only. *)
Lemma validate_promo_by_upper_case (s1 s2 : string) (req1 req2 : request) :
  same_ignoring_case toUpperCase s1 s2 ->
  prop (body req1) "promoCode" = VString s1 ->
  prop (body req2) "promoCode" = VString s2 ->
  validate_promo toUpperCase req1 = validate_promo toUpperCase req2.
Proof.
  intros [Hup Htr] H1 H2. unfold validate_promo. rewrite H1, H2, Htr. cbn.
  rewrite Hup. reflexivity.
Qed.

Lemma create_subscription_by_upper_case (s1 s2 : string) (req1 req2 : request) :
  same_ignoring_case toUpperCase s1 s2 ->
  prop (body req1) "promoCode" = VString s1 ->
  prop (body req2) "promoCode" = VString s2 ->
  prop (body req1) "priceId" = prop (body req2) "priceId" ->
  prop (body req1) "customerEmail" = prop (body req2) "customerEmail" ->
  prop (body req1) "customerId" = prop (body req2) "customerId" ->
  create_subscription toUpperCase req1 = create_subscription toUpperCase req2.
Proof.
  intros [Hup Htr] H1 H2 Hp He Hc. unfold create_subscription.
  rewrite H1, H2, Hp, He, Hc, Htr. cbn. rewrite Hup. reflexivity.
Qed.

(** The promo branch of /create-subscription: with a promo code that is a
    non-empty string, the only promotion codes the route ever asks for are
    the active ones under the upper-case form of the code, and it does ask
    whenever no call before was rejected. *)
Lemma create_subscription_promo_lookup {W : Type} (P : processor W) (w : W)
    (req : request) (s : string) :
  prop (body req) "promoCode" = VString s ->
  s <> "" ->
  let t := trace (run P (create_subscription toUpperCase req) w) in
  (forall params, In (promotionCodes_list params) (calls t) ->
                  promotionCodes_list params = promo_lookup (toUpperCase s)) /\
  ((forall c e, ~ In (Called c (Rejected e)) t) ->
   In (promo_lookup (toUpperCase s)) (calls t)).
Proof.
  intros H Hs t. subst t. unfold create_subscription, promo_lookup. rewrite H.
  assert (Ht : truthy (VString s) = true).
  { cbn. destruct (String.eqb_spec s ""); [contradiction|reflexivity]. }
  rewrite Ht.
  answer_cases P.
  all: try match goal with
         | r : reply_of (subscriptions_create _) |- _ =>
             cbn in r; destruct r as [sid scus sst [[iid [pi|]]|]]
         end.
  all: cbn; split;
    [intros params F;
     repeat match goal with
       | H : _ \/ _ |- _ => destruct H as [H|H]
       | H : False |- _ => destruct H
       end; try discriminate F; try (injection F as <-); reflexivity
    |intro Hno; try (cbn; tauto)].
  all: exfalso; eapply Hno; cbn; eauto 8.
Qed.


End UpperCase.

(** ** Customers of /create-payment-intent *)

(** Creating a payment intent leaves the reference processor's customers
    as they are. *)
Lemma create_payment_intent_customers (params : value) (w : Reference.world) :
  Reference.customers (fst (Reference.create_payment_intent params w))
  = Reference.customers w.
Proof.
  unfold Reference.create_payment_intent.
  destruct (prop params "amount"); try reflexivity.
  destruct (prop params "currency"); try reflexivity.
  destruct ((0 <? n)%Z && negb (s =? "")); reflexivity.
Qed.

(** Every call a run records was answered by the processor. *)
Lemma run_answers {W A : Type} (P : processor W) (p : prog A) (w : W)
    (c : call) (r : result reply) :
  In (Called c r) (trace (run P p w)) ->
  exists (w1 w2 : W) (r' : result (reply_of c)),
    answer P c w1 = (w2, r') /\ r = outcome_in c r'.
Proof.
  revert w; induction p as [a|e|c0 k IH|args k IH|args k IH|status b k IH];
    intros w H; cbn in H.
  - destruct H.
  - destruct H.
  - destruct (answer P c0 w) as [w' r0] eqn:E. cbn in H. destruct H as [H|H].
    + injection H as Hc Hr. subst c0. exists w, w', r0. split; [exact E|].
      symmetry; exact Hr.
    + exact (IH _ _ H).
  - destruct H as [H|H]; [discriminate H|exact (IH _ H)].
  - destruct H as [H|H]; [discriminate H|exact (IH _ H)].
  - destruct H as [H|H]; [discriminate H|exact (IH _ H)].
Qed.

Lemma valid_inputs_inv (req : request) :
  valid_inputs req = true ->
  exists (e : string) (n : Z) (cur : string),
    prop (body req) "customerEmail" = VString e /\
    prop (body req) "amount" = VNumber n /\
    (0 <? n)%Z = true /\
    js_or (prop (body req) "currency") (VString "usd") = VString cur /\
    (cur =? "") = false.
Proof.
  unfold valid_inputs, js_or. intro H.
  destruct (prop (body req) "customerEmail") as [| | | |e| | |]; try discriminate.
  destruct (prop (body req) "amount") as [| | |n| | | |]; try discriminate.
  apply andb_true_iff in H. destruct H as [Hn Hc].
  exists e, n.
  destruct (prop (body req) "currency") as [| |b|m|s| | |]; cbn in *; try discriminate;
    try (exists "usd"; repeat split; assumption).
  - apply negb_true_iff in Hc. rewrite Hc. exists "usd"; repeat split; assumption.
  - apply negb_true_iff in Hc. rewrite Hc. exists "usd"; repeat split; assumption.
  - destruct (s =? "") eqn:E; cbn; [exists "usd"|exists s]; repeat split; assumption.
Qed.

(** The reference processor never issues an empty client secret. *)
Lemma reference_client_secret (params : value) (w w' : Reference.world)
    (pi : PaymentIntent.t) :
  Reference.create_payment_intent params w = (w', Fulfilled pi) ->
  PaymentIntent.client_secret pi <> "".
Proof.
  unfold Reference.create_payment_intent.
  destruct (prop params "amount"); try discriminate.
  destruct (prop params "currency"); try discriminate.
  destruct ((0 <? n)%Z && negb (s =? "")); [|discriminate].
  intro H. injection H as _ <-. unfold Reference.fresh. cbn. discriminate.
Qed.

(** A 200 of /create-payment-intent carries the client secret of the
    payment intent the processor created in that run. *)
Lemma create_payment_intent_success {W : Type} (P : processor W)
    (process_env : list (string * string)) (req : request) (w : W) (b : res_body) :
  In (Responded 200 b) (trace (run P (create_payment_intent process_env req) w)) ->
  exists (params : value) (pi : PaymentIntent.t) (key customer : string),
    b = payment_sheet process_env (PaymentIntent.client_secret pi) key customer /\
    In (Called (paymentIntents_create params) (Fulfilled (APaymentIntent pi)))
       (trace (run P (create_payment_intent process_env req) w)).
Proof.
  unfold create_payment_intent.
  destruct (truthy (prop (body req) "customerId")).
  all: answer_cases P.
  all: intro H; cbn in H; entry_cases.
  all: do 4 eexists; split; [reflexivity|]; cbn; eauto 8.
Qed.

(** C9. Without a customer id, /create-payment-intent starts by creating
    a customer from the email alone and never looks one up, on every
    processor; on the reference processor every such call leaves one more
    customer with that email than there was before. *)
Theorem create_payment_intent_without_customer_id
    (process_env : list (string * string)) (req : request) :
  truthy (prop (body req) "customerId") = false ->
  (forall (W : Type) (P : processor W) (w : W),
     let t := trace (run P (create_payment_intent process_env req) w) in
     (exists r rest,
        t = Called (customers_create
                      (VObject [("email", prop (body req) "customerEmail")])) r
            :: rest) /\
     (forall params, ~ In (customers_list params) (calls t))) /\
  (forall (w : Reference.world) (e : string),
     prop (body req) "customerEmail" = VString e ->
     let w' := world (run Reference.stripe (create_payment_intent process_env req) w) in
     (exists c,
        Reference.customers w' = c :: Reference.customers w /\
        Customer.email c = VString e /\
        Customer.id c = Reference.fresh "cus_" w) /\
     List.length (filter (Reference.has_email e) (Reference.customers w'))
     = S (List.length (filter (Reference.has_email e) (Reference.customers w)))).
Proof.
  intro Ht. split.
  - intros W P w t. subst t. unfold create_payment_intent. rewrite Ht. split.
    + cbn. destruct (answer P _ w) as [w1 r]. cbn. do 2 eexists. reflexivity.
    + intro params. answer_cases P. all: cbn; intuition discriminate.
  - intros w e He w'.
    assert (H : exists c,
               Reference.customers w' = c :: Reference.customers w /\
               Customer.email c = VString e /\
               Customer.id c = Reference.fresh "cus_" w).
    { subst w'. unfold create_payment_intent. rewrite Ht, He. cbn.
      match goal with
      | |- context [Reference.create_payment_intent ?p ?w0] =>
          pose proof (create_payment_intent_customers p w0) as Hc;
          destruct (Reference.create_payment_intent p w0) as [w3 [pi|err]]
      end; cbn in *; eexists; rewrite Hc; repeat split. }
    split; [exact H|].
    destruct H as (c & -> & Hemail & _). cbn. unfold Reference.has_email at 1.
    rewrite Hemail, String.eqb_refl. reflexivity.
Qed.

(** C2, as the code has it. On the reference processor, of two
    consecutive /create-payment-intent requests with valid inputs and the
    same email, both succeed, and the second returns the customer of the
    first whenever the second carries a customer id, whether or not the
    first does; a second request without a customer id returns the
    customer the processor creates for it. On every processor, a 200 of
    the route carries as [paymentIntent] the client secret of the payment
    intent the processor created in that request, as it is: it is not
    empty when the processor issues no empty secret. *)
Theorem create_payment_intent_customer_stable
    (process_env : list (string * string)) :
  (forall (w : Reference.world) (req1 req2 : request) (e : string),
     valid_inputs req1 = true ->
     valid_inputs req2 = true ->
     prop (body req1) "customerEmail" = VString e ->
     prop (body req2) "customerEmail" = VString e ->
     let first := run Reference.stripe (create_payment_intent process_env req1) w in
     let second :=
       run Reference.stripe (create_payment_intent process_env req2) (world first) in
     exists customer1 customer2 secret1 secret2 key1 key2,
       responses (trace first)
       = [(200%Z, payment_sheet process_env secret1 key1 customer1)] /\
       responses (trace second)
       = [(200%Z, payment_sheet process_env secret2 key2 customer2)] /\
       secret1 <> "" /\ secret2 <> "" /\
       (truthy (prop (body req2) "customerId") = true -> customer2 = customer1) /\
       (truthy (prop (body req2) "customerId") = false ->
        customer2 = Reference.fresh "cus_" (world first))) /\
  (forall (W : Type) (P : processor W) (w : W) (req : request) (b : res_body),
     In (Responded 200 b) (trace (run P (create_payment_intent process_env req) w)) ->
     exists params pi key customer,
       b = payment_sheet process_env (PaymentIntent.client_secret pi) key customer /\
       In (Called (paymentIntents_create params) (Fulfilled (APaymentIntent pi)))
          (trace (run P (create_payment_intent process_env req) w)) /\
       ((forall params' w1 w2 pi',
           answer P (paymentIntents_create params') w1 = (w2, Fulfilled pi') ->
           PaymentIntent.client_secret pi' <> "") ->
        PaymentIntent.client_secret pi <> "")).
Proof.
  split.
  - intros w req1 req2 e V1 V2 E1 E2 first second. subst first second.
    destruct (valid_inputs_inv _ V1) as (e1 & n1 & cur1 & _ & A1 & P1 & C1 & N1).
    destruct (valid_inputs_inv _ V2) as (e2 & n2 & cur2 & _ & A2 & P2 & C2 & N2).
    unfold create_payment_intent.
    rewrite E1, E2, A1, A2, C1, C2.
    destruct (truthy (prop (body req1) "customerId")) eqn:T1;
      destruct (truthy (prop (body req2) "customerId")) eqn:T2;
      cbn -[filter]; change (Pos.to_nat 1) with 1%nat.
    + destruct (filter (Reference.has_email e) (Reference.customers w)) as [|m ms] eqn:F;
        cbn -[filter]; rewrite ?P1, ?N1; cbn -[filter].
      * unfold Reference.has_email at 1. cbn [filter Reference.has_email Customer.email].
        rewrite String.eqb_refl. cbn. rewrite ?P2, ?N2. cbn.
        do 6 eexists.
        split; [reflexivity|]. split; [reflexivity|].
        do 2 (split; [unfold Reference.fresh; cbn; discriminate|]).
        split; intro F'; first [reflexivity | discriminate F'].
      * rewrite F. cbn. rewrite ?P2, ?N2. cbn.
        do 6 eexists.
        split; [reflexivity|]. split; [reflexivity|].
        do 2 (split; [unfold Reference.fresh; cbn; discriminate|]).
        split; intro F'; first [reflexivity | discriminate F'].
    + destruct (filter (Reference.has_email e) (Reference.customers w)) as [|m ms] eqn:F;
        cbn -[filter]; rewrite ?P1, ?N1; cbn -[filter]; rewrite ?P2, ?N2; cbn.
      * do 6 eexists.
        split; [reflexivity|]. split; [reflexivity|].
        do 2 (split; [unfold Reference.fresh; cbn; discriminate|]).
        split; intro F'; first [reflexivity | discriminate F'].
      * do 6 eexists.
        split; [reflexivity|]. split; [reflexivity|].
        do 2 (split; [unfold Reference.fresh; cbn; discriminate|]).
        split; intro F'; first [reflexivity | discriminate F'].
    + rewrite ?P1, ?N1. cbn -[filter].
      unfold Reference.has_email at 1. cbn [filter Reference.has_email Customer.email].
      rewrite String.eqb_refl. cbn. rewrite ?P2, ?N2. cbn.
      do 6 eexists.
      split; [reflexivity|]. split; [reflexivity|].
      do 2 (split; [unfold Reference.fresh; cbn; discriminate|]).
      split; intro F'; first [reflexivity | discriminate F'].
    + rewrite ?P1, ?N1. cbn -[filter]. rewrite ?P2, ?N2. cbn.
      do 6 eexists.
      split; [reflexivity|]. split; [reflexivity|].
      do 2 (split; [unfold Reference.fresh; cbn; discriminate|]).
      split; intro F'; first [reflexivity | discriminate F'].
  - intros W P w req b H.
    destruct (create_payment_intent_success _ _ _ _ _ H)
      as (params & pi & key & customer & -> & Hin).
    exists params, pi, key, customer.
    split; [reflexivity|]. split; [exact Hin|].
    intro Hsecret.
    destruct (run_answers _ _ _ _ _ Hin) as (w1 & w2 & r' & Hans & Hr).
    destruct r' as [pi'|err]; [|discriminate Hr]. cbn in Hr, Hans, pi'.
    injection Hr as ->.
    exact (Hsecret _ _ _ _ Hans).
Qed.

(** C2 as stated fails: two identical, valid requests without a customer
    id, one after the other on a processor that has seen nothing yet, both
    succeed and return different customers. *)
Lemma create_payment_intent_customer_unstable :
  valid_inputs Example.pay_anonymous = true /\
  responses (trace Example.first_anonymous)
  = [(200%Z, payment_sheet [] "pi_2_secret_2" "ek_test_1" "cus_0")] /\
  responses (trace Example.second_anonymous)
  = [(200%Z, payment_sheet [] "pi_5_secret_5" "ek_test_4" "cus_3")] /\
  "cus_0" <> "cus_3".
Proof.
  repeat split. discriminate.
Qed.

(** C1, on the code. Whenever the processor answers the creation of the
    subscription with one whose latest invoice has no payment intent,
    /create-subscription reads [client_secret] off null: the route answers
    500 with that TypeError, not a success with a null payment intent. *)
Theorem create_subscription_without_payment_intent {W : Type} (P : processor W)
    (toUpperCase : string -> string)
    (w : W) (req : request) (params : value) (s : Subscription.t) (inv : Invoice.t) :
  let t := trace (run P (create_subscription toUpperCase req) w) in
  In (Called (subscriptions_create params) (Fulfilled (ASubscription s))) t ->
  Subscription.latest_invoice s = Some inv ->
  Invoice.payment_intent inv = None ->
  responses t
  = [(500%Z, Json (VObject [("error", VString (message (null_deref "client_secret")))]))].
Proof.
  intros t. subst t. unfold create_subscription.
  destruct (truthy (prop (body req) "promoCode")).
  destruct (prop (body req) "promoCode").
  all: answer_cases P.
  all: try match goal with
         | r : reply_of (subscriptions_create _) |- _ =>
             cbn in r; destruct r as [sid scus sst [[iid [pi|]]|]]
         end.
  all: intros H Hinv Hpi; cbn in H; entry_cases;
    cbn in *; try discriminate; try reflexivity;
    injection Hinv as <-; discriminate Hpi.
Qed.

(** ** The statements on concrete executions *)

Lemma create_subscription_without_payment_intent_witness :
  responses (trace (run Reference.stripe (create_subscription toUpperCase_ascii (Example.subscribe "free100"))
                      Example.with_promotion_codes))
  = [(500%Z, Json (VObject [("error",
        VString "Cannot read properties of null (reading 'client_secret')")]))].
Proof.
  eapply (@create_subscription_without_payment_intent _ Reference.stripe
            toUpperCase_ascii
            Example.with_promotion_codes (Example.subscribe "free100")).
  - cbn. do 4 right. left. reflexivity.
  - reflexivity.
  - reflexivity.
Defined.

Lemma create_payment_intent_customer_stable_witness :
  (exists customer secret1 secret2 key1 key2,
     responses (trace Example.first_anonymous)
     = [(200%Z, payment_sheet [] secret1 key1 customer)] /\
     responses
       (trace (run Reference.stripe (create_payment_intent [] Example.pay_as_user)
                 (world Example.first_anonymous)))
     = [(200%Z, payment_sheet [] secret2 key2 customer)] /\
     secret1 <> "" /\ secret2 <> "") /\
  (exists params pi key customer,
     payment_sheet [] "pi_2_secret_2" "ek_test_1" "cus_0"
     = payment_sheet [] (PaymentIntent.client_secret pi) key customer /\
     In (Called (paymentIntents_create params) (Fulfilled (APaymentIntent pi)))
        (trace Example.first_anonymous) /\
     PaymentIntent.client_secret pi <> "").
Proof.
  split.
  - destruct (proj1 (create_payment_intent_customer_stable [])
                Example.fresh_processor Example.pay_anonymous Example.pay_as_user
                "a@example.com" eq_refl eq_refl eq_refl eq_refl)
      as (customer1 & customer2 & secret1 & secret2 & key1 & key2
          & H1 & H2 & N1 & N2 & Hsame & _).
    rewrite (Hsame eq_refl) in H2.
    exists customer1, secret1, secret2, key1, key2.
    split; [exact H1|]. split; [exact H2|]. split; [exact N1|exact N2].
  - assert (Hin : In (Responded 200 (payment_sheet [] "pi_2_secret_2" "ek_test_1" "cus_0"))
                    (trace (run Reference.stripe
                              (create_payment_intent [] Example.pay_anonymous)
                              Example.fresh_processor))).
    { cbn. do 3 right. left. reflexivity. }
    destruct (proj2 (create_payment_intent_customer_stable [])
                _ Reference.stripe Example.fresh_processor Example.pay_anonymous _ Hin)
      as (params & pi & key & customer & Hb & Hcall & Hne).
    exists params, pi, key, customer.
    split; [exact Hb|]. split; [exact Hcall|].
    apply Hne. intros params' w1 w2 pi' Hans.
    exact (reference_client_secret _ _ Hans).
Defined.

Lemma webhook_rejects_unverified_witness :
  responses (trace (run Reference.stripe (webhook Example.webhook_env Example.tampered)
                      Example.with_delivery))
  = [(400%Z, Text "Webhook Error: No signatures found matching the expected signature for payload")].
Proof.
  assert (H : answer Reference.stripe
                (verification Example.webhook_env Example.tampered) Example.with_delivery
              = (Example.with_delivery,
                 Rejected (Error "StripeSignatureVerificationError"
                   "No signatures found matching the expected signature for payload")))
    by reflexivity.
  exact (proj1 (proj2 (@webhook_rejects_unverified _ Reference.stripe Example.webhook_env
                         _ _ _ _ H))).
Defined.


Lemma validate_promo_missing_or_unmatched_witness :
  responses (trace (run Reference.stripe (validate_promo toUpperCase_ascii (Example.post []))
                      Example.with_promotion_codes))
  = [(400%Z, Json (VObject [("valid", VBool false);
                            ("error", VString "Promo code is required")]))] /\
  responses (trace (run Reference.stripe (validate_promo toUpperCase_ascii (Example.promo (VString "nope")))
                      Example.with_promotion_codes))
  = [(200%Z, Json (VObject [("valid", VBool false)]))].
Proof.
  split.
  - exact (proj1 (@validate_promo_missing_or_unmatched _ Reference.stripe toUpperCase_ascii
                    Example.with_promotion_codes (Example.post [])) eq_refl).
  - refine (proj2 (@validate_promo_missing_or_unmatched _ Reference.stripe toUpperCase_ascii
                     Example.with_promotion_codes (Example.promo (VString "nope")))
              "nope" Example.with_promotion_codes false eq_refl _ eq_refl).
    discriminate.
Defined.

Lemma cancel_subscription_outcomes_witness :
  responses (trace (run Reference.stripe (cancel_subscription (Example.cancel (VString "cus_2")))
                      (Example.three_subscriptions [])))
  = [(404%Z, Json (VObject [("error", VString "No active subscription found")]))] /\
  responses (trace (run Reference.stripe (cancel_subscription (Example.cancel (VString "cus_1")))
                      (Example.three_subscriptions [])))
  = [(200%Z, Json (VObject [("success", VBool true);
                            ("canceledSubscriptions",
                             VArray [VString "sub_1"; VString "sub_2"; VString "sub_3"])]))].
Proof.
  split.
  - refine (proj1 (proj2 (@cancel_subscription_outcomes _ Reference.stripe
                            (Example.three_subscriptions [])
                            (Example.cancel (VString "cus_2")))
                     eq_refl [] false (Example.three_subscriptions []) eq_refl) eq_refl).
  - refine (proj1 (proj2 (proj2 (@cancel_subscription_outcomes _ Reference.stripe
                                   (Example.three_subscriptions [])
                                   (Example.cancel (VString "cus_1")))
                            eq_refl [Example.sub "1"; Example.sub "2"; Example.sub "3"]
                            false (Example.three_subscriptions []) eq_refl)
                     _
                     [Reference.canceled (Example.sub "1");
                      Reference.canceled (Example.sub "2");
                      Reference.canceled (Example.sub "3")]
                     _ _)).
    + cbn. lia.
    + repeat (eapply cancels_cons; [reflexivity|]). apply cancels_nil.
Defined.

Lemma cancel_subscription_stops_at_rejection_witness :
  calls (trace (run Reference.stripe (cancel_subscription (Example.cancel (VString "cus_1")))
                  (Example.three_subscriptions ["sub_2"])))
  = [active_subscriptions (VString "cus_1");
     subscriptions_cancel "sub_1"; subscriptions_cancel "sub_2"] /\
  responses (trace (run Reference.stripe (cancel_subscription (Example.cancel (VString "cus_1")))
                      (Example.three_subscriptions ["sub_2"])))
  = [(500%Z, Json (VObject [("error", VString "Could not cancel sub_2")]))] /\
  Reference.subscriptions
    (world (run Reference.stripe (cancel_subscription (Example.cancel (VString "cus_1")))
              (Example.three_subscriptions ["sub_2"])))
  = [Reference.canceled (Example.sub "1"); Example.sub "2"; Example.sub "3"].
Proof.
  assert (Hcs : cancels Reference.stripe [Example.sub "1"]
                  (Example.three_subscriptions ["sub_2"])
                  [Reference.canceled (Example.sub "1")]
                  (Reference.World
                     [Customer.Make "cus_1" (VString "a@example.com") VUndefined] []
                     [Reference.canceled (Example.sub "1"); Example.sub "2"; Example.sub "3"]
                     0 ["sub_2"] [])).
  { eapply cancels_cons; [reflexivity|apply cancels_nil]. }
  pose proof (@cancel_subscription_stops_at_rejection _ Reference.stripe
                (Example.three_subscriptions ["sub_2"]) _ _ _
                (Example.cancel (VString "cus_1"))
                [Example.sub "1"] [Example.sub "3"] _ (Example.sub "2") false
                (Error "StripeAPIError" "Could not cancel sub_2")
                eq_refl eq_refl Hcs eq_refl) as H.
  cbv zeta in H. destruct H as (_ & Hcalls & Hres & Hworld).
  split; [exact Hcalls|]. split; [exact Hres|]. rewrite Hworld. reflexivity.
Defined.


Lemma create_payment_intent_without_customer_id_witness :
  calls (trace Example.first_anonymous)
  = [customers_create (VObject [("email", VString "a@example.com")]);
     ephemeralKeys_create (VObject [("customer", VString "cus_0")])
       (VObject [("apiVersion", VString "2023-10-16")]);
     paymentIntents_create
       (VObject [("amount", VNumber 500); ("currency", VString "usd");
                 ("customer", VString "cus_0");
                 ("metadata", VObject [("price_id", VString "price_monthly");
                                       ("eventer_user_id", VUndefined)]);
                 ("automatic_payment_methods", VObject [("enabled", VBool true)])])] /\
  List.length (filter (Reference.has_email "a@example.com")
                 (Reference.customers (world Example.second_anonymous)))
  = 2%nat.
Proof.
  pose proof (@create_payment_intent_without_customer_id [] Example.pay_anonymous eq_refl)
    as [_ H].
  split; [reflexivity|].
  exact (proj2 (H (world Example.first_anonymous) "a@example.com" eq_refl)).
Defined.

Lemma falsy_field_is_missing_witness :
  run Reference.stripe (validate_promo toUpperCase_ascii (Example.promo (VString "")))
    Example.with_promotion_codes
  = Ran Example.with_promotion_codes
      [Responded 400 (Json (VObject [("valid", VBool false);
                                     ("error", VString "Promo code is required")]))]
      (Fulfilled tt) /\
  run Reference.stripe (cancel_subscription (Example.cancel (VString "")))
    (Example.three_subscriptions [])
  = Ran (Example.three_subscriptions [])
      [Responded 400 (Json (VObject [("error", VString "Customer ID is required")]))]
      (Fulfilled tt).
Proof.
  split.
  - exact (proj1 (@falsy_field_is_missing _ Reference.stripe toUpperCase_ascii Example.with_promotion_codes
                    (Example.promo (VString ""))) eq_refl).
  - exact (proj2 (@falsy_field_is_missing _ Reference.stripe toUpperCase_ascii (Example.three_subscriptions [])
                    (Example.cancel (VString ""))) eq_refl).
Defined.

(** ** Every route answers exactly once *)

Section Routes.

Context {W : Type} (P : processor W).
Variable toUpperCase : string -> string.

(** X1. /create-payment-intent answers exactly once, as the last thing it
    does, whatever the request and whatever the processor does; the status
    is 200 or 500 (no input is ever refused as a bad request), no exception
    leaves the handler, and at most four processor calls are made. *)
Theorem create_payment_intent_responds_once
    (process_env : list (string * string)) (w : W) (req : request) :
  responds_once [200; 500]%Z (run P (create_payment_intent process_env req) w) /\
  (List.length (calls (trace (run P (create_payment_intent process_env req) w))) <= 4)%nat.
Proof.
  unfold responds_once, create_payment_intent.
  destruct (truthy (prop (body req) "customerId")).
  all: answer_cases P.
  all: split; [split; [reflexivity|]|cbn; lia].
  all: last_response; cbn; split; [reflexivity|tauto].
Qed.

(** X2. /validate-promo answers exactly once, last, with 200, 400 or 500; it
    makes at most one processor call, and that call is the lookup of one
    active promotion code. *)
Theorem validate_promo_responds_once (w : W) (req : request) :
  responds_once [200; 400; 500]%Z (run P (validate_promo toUpperCase req) w) /\
  (List.length (calls (trace (run P (validate_promo toUpperCase req) w))) <= 1)%nat /\
  (forall c, In c (calls (trace (run P (validate_promo toUpperCase req) w))) ->
             exists code, c = promo_lookup code).
Proof.
  unfold responds_once, validate_promo, promo_lookup.
  destruct (truthy (prop (body req) "promoCode")).
  destruct (prop (body req) "promoCode").
  all: answer_cases P.
  all: split; [split; [reflexivity|]|split; [cbn; lia|]].
  all: try (last_response; cbn; split; [reflexivity|tauto]).
  all: cbn; intros c H; entry_cases; try contradiction;
    repeat match goal with H : _ \/ _ |- _ => destruct H as [H|H] end;
    try contradiction; subst; eauto.
Qed.

(** X3. /create-subscription answers exactly once, last, with 200 or 500; it
    makes at most five processor calls and never more than one subscription. *)
Theorem create_subscription_responds_once (w : W) (req : request) :
  responds_once [200; 500]%Z (run P (create_subscription toUpperCase req) w) /\
  (List.length (calls (trace (run P (create_subscription toUpperCase req) w))) <= 5)%nat /\
  (List.length
     (filter (fun c => match c with subscriptions_create _ => true | _ => false end)
        (calls (trace (run P (create_subscription toUpperCase req) w)))) <= 1)%nat.
Proof.
  unfold responds_once, create_subscription.
  destruct (truthy (prop (body req) "promoCode")).
  destruct (prop (body req) "promoCode").
  all: answer_cases P.
  all: try match goal with
         | r : reply_of (subscriptions_create _) |- _ =>
             cbn in r; destruct r as [sid scus sst [[iid [pi|]]|]]
         end.
  all: cbn; split; [split; [reflexivity|]|split; cbn; lia].
  all: last_response; cbn; split; [reflexivity|tauto].
Qed.

(** The loop of the cancellation handler only calls the processor; it
    ends with the collected ids after fulfilled calls only, or with the
    error of the first rejected call, which is then its last call. *)
Lemma run_cancel_each_shape (l : list Subscription.t) (acc : list value) (w : W) :
  let t := run P (cancel_each l acc) w in
  (exists collected, returned t = Fulfilled collected /\ only_fulfilled (trace t)) \/
  (exists e c before,
     returned t = Rejected e /\
     trace t = (before ++ [Called c (Rejected e)])%list /\
     only_fulfilled before).
Proof.
  revert acc w; induction l as [|s l IH]; intros acc w; cbn.
  - left. exists acc. split; [reflexivity|constructor].
  - destruct (answer P (subscriptions_cancel (Subscription.id s)) w) as [w1 [c|e]]; cbn.
    + destruct (IH (acc ++ [VString (Subscription.id c)])%list w1)
        as [(collected & Hr & Hf)|(e & c' & before & Hr & Ht & Hf)].
      * left. exists collected. split; [exact Hr|].
        constructor; [eauto|exact Hf].
      * right. exists e, c'.
        eexists (Called (subscriptions_cancel (Subscription.id s))
                   (Fulfilled (ASubscription c)) :: before).
        split; [exact Hr|]. split; [cbn; rewrite Ht; reflexivity|].
        constructor; [eauto|exact Hf].
    + right. exists e, (subscriptions_cancel (Subscription.id s)), [].
      split; [reflexivity|]. split; [reflexivity|constructor].
Qed.

Lemma responses_only_fulfilled (t : list entry) : only_fulfilled t -> responses t = [].
Proof.
  induction 1 as [|en t (c & r & ->) _ IH]; cbn; auto.
Qed.

(** X4. /cancel-subscription answers exactly once, last, with 200, 400, 404
    or 500, whatever the processor lists and however many cancellations it
    fulfils. *)
Theorem cancel_subscription_responds_once (w : W) (req : request) :
  responds_once [200; 400; 404; 500]%Z (run P (cancel_subscription req) w).
Proof.
  unfold responds_once.
  destruct (truthy (prop (body req) "customerId")) eqn:Ht.
  - destruct (answer P (active_subscriptions (prop (body req) "customerId")) w)
      as [w1 [page|e]] eqn:Hans.
    + destruct (ApiList.data page) as [|s rest] eqn:Hdata.
      * unfold cancel_subscription, active_subscriptions in *.
        rewrite Ht. cbn. rewrite Hans. cbn. rewrite Hdata. cbn.
        split; [reflexivity|]. last_response; cbn; split; [reflexivity|tauto].
      * rewrite (@run_cancel_subscription_listed _ P w w1 req page Ht Hans)
          by (rewrite Hdata; discriminate).
        cbv zeta.
        destruct (run_cancel_each_shape (ApiList.data page) [] w1)
          as [(collected & Hr & Hf)|(e & c & before & Hr & Htr & Hf)];
          rewrite Hr; cbn; (split; [reflexivity|]).
        -- eexists (_ :: trace _), _, _. split; [reflexivity|].
           cbn. rewrite (responses_only_fulfilled Hf). split; [reflexivity|tauto].
        -- eexists (_ :: trace _ ++ [_])%list, _, _.
           split; [cbn; rewrite <- app_assoc; reflexivity|].
           cbn. rewrite responses_app, Htr, responses_app,
             (responses_only_fulfilled Hf). cbn. split; [reflexivity|tauto].
    + unfold cancel_subscription, active_subscriptions in *.
      rewrite Ht. cbn. rewrite Hans. cbn.
      split; [reflexivity|]. last_response; cbn; split; [reflexivity|tauto].
  - unfold cancel_subscription. rewrite Ht. cbn.
    split; [reflexivity|]. last_response; cbn; split; [reflexivity|tauto].
Qed.

(** X5. /webhook answers exactly once, last, with 200 or 400, and its only
    call into the processor's library is the verification: no branch of
    the dispatch reads or changes anything at the processor. *)
Theorem webhook_only_verifies (process_env : list (string * string))
    (w : W) (req : request) :
  responds_once [200; 400]%Z (run P (webhook process_env req) w) /\
  calls (trace (run P (webhook process_env req) w)) = [verification process_env req] /\
  world (run P (webhook process_env req) w)
  = fst (answer P (verification process_env req) w).
Proof.
  unfold responds_once, verification. cbn.
  destruct (answer P _ w) as [w1 [event|err]]; cbn.
  - destruct (dispatch_logs event) as [line ->]. cbn.
    repeat split. last_response; cbn; split; [reflexivity|tauto].
  - repeat split. last_response; cbn; split; [reflexivity|tauto].
Qed.

End Routes.

(** ** A rejected call ends the request *)

Lemma only_fulfilled_not_rejected (t : list entry) (c : call) (e : error) :
  only_fulfilled t -> ~ In (Called c (Rejected e)) t.
Proof.
  induction 1 as [|en t (c' & r & ->) _ IH]; cbn.
  - intros [].
  - intros [H|H]; [discriminate H|exact (IH H)].
Qed.

(** X6. The first call the processor rejects is the last thing a JSON route
    asks of it: the error is written to the console and its message is
    passed on verbatim in a 500; nothing is retried and nothing is undone. *)
Theorem rejection_aborts {W : Type} (P : processor W)
    (toUpperCase : string -> string)
    (process_env : list (string * string)) (w : W) (req : request)
    (c : call) (e : error) :
  (In (Called c (Rejected e)) (trace (run P (create_payment_intent process_env req) w)) ->
   aborted_by "Error creating payment intent:" error_body c e
     (trace (run P (create_payment_intent process_env req) w))) /\
  (In (Called c (Rejected e)) (trace (run P (validate_promo toUpperCase req) w)) ->
   aborted_by "Error validating promo code:" invalid_body c e
     (trace (run P (validate_promo toUpperCase req) w))) /\
  (In (Called c (Rejected e)) (trace (run P (create_subscription toUpperCase req) w)) ->
   aborted_by "Error creating subscription:" error_body c e
     (trace (run P (create_subscription toUpperCase req) w))) /\
  (In (Called c (Rejected e)) (trace (run P (cancel_subscription req) w)) ->
   aborted_by "Error canceling subscription:" error_body c e
     (trace (run P (cancel_subscription req) w))).
Proof.
  unfold aborted_by, error_body, invalid_body. repeat split.
  - unfold create_payment_intent.
    destruct (truthy (prop (body req) "customerId")).
    all: answer_cases P.
    all: intro H; cbn in H; entry_cases; try contradiction.
    all: split_trace; cbn; unfold only_fulfilled; repeat constructor; eauto.
  - unfold validate_promo.
    destruct (truthy (prop (body req) "promoCode")).
    destruct (prop (body req) "promoCode").
    all: answer_cases P.
    all: intro H; cbn in H; entry_cases; try contradiction.
    all: split_trace; cbn; unfold only_fulfilled; repeat constructor; eauto.
  - unfold create_subscription.
    destruct (truthy (prop (body req) "promoCode")).
    destruct (prop (body req) "promoCode").
    all: answer_cases P.
    all: try match goal with
           | r : reply_of (subscriptions_create _) |- _ =>
               cbn in r; destruct r as [sid scus sst [[iid [pi|]]|]]
           end.
    all: intro H; cbn in H; entry_cases; try contradiction.
    all: split_trace; cbn; unfold only_fulfilled; repeat constructor; eauto.
  - destruct (truthy (prop (body req) "customerId")) eqn:Ht.
    + destruct (answer P (active_subscriptions (prop (body req) "customerId")) w)
        as [w1 [page|e0]] eqn:Hans.
      * destruct (ApiList.data page) as [|s rest] eqn:Hdata.
        -- unfold cancel_subscription, active_subscriptions in *.
           rewrite Ht. cbn. rewrite Hans. cbn. rewrite Hdata. cbn.
           intro H; entry_cases; try contradiction.
        -- rewrite (@run_cancel_subscription_listed _ P w w1 req page Ht Hans)
             by (rewrite Hdata; discriminate).
           cbv zeta.
           destruct (run_cancel_each_shape P (ApiList.data page) [] w1)
             as [(collected & Hr & Hf)|(e' & c' & before & Hr & Htr & Hf)];
             rewrite Hr; cbn; intros [H|H]; try discriminate H.
           ++ apply in_app_or in H. destruct H as [H|H].
              ** destruct (only_fulfilled_not_rejected _ _ Hf H).
              ** cbn in H. entry_cases; try contradiction.
           ++ rewrite Htr in H. rewrite <- app_assoc in H.
              apply in_app_or in H. destruct H as [H|H].
              ** destruct (only_fulfilled_not_rejected _ _ Hf H).
              ** cbn in H. entry_cases; try contradiction.
                 eexists (_ :: before). rewrite Htr, <- app_assoc.
                 split; [reflexivity|]. constructor; [eauto|exact Hf].
      * unfold cancel_subscription, active_subscriptions in *.
        rewrite Ht. cbn. rewrite Hans. cbn.
        intro H; entry_cases; try contradiction.
        split_trace; cbn; unfold only_fulfilled; repeat constructor; eauto.
    + unfold cancel_subscription. rewrite Ht. cbn.
      intro H; entry_cases; try contradiction.
Qed.

(** ** Promo codes *)

Section PromoCodes.

Context {W : Type} (P : processor W).
Variable toUpperCase : string -> string.

(** X7. When the lookup finds active promotion codes, /validate-promo answers
    with the first one: its id and the terms of its coupon; the others are
    ignored. *)
Theorem validate_promo_first_match (w w' : W) (req : request) (s : string)
    (first : PromotionCode.t) (others : list PromotionCode.t) (more : bool) :
  prop (body req) "promoCode" = VString s ->
  s <> "" ->
  answer P (promo_lookup (toUpperCase s)) w
  = (w', Fulfilled (ApiList.Make (first :: others) more)) ->
  responses (trace (run P (validate_promo toUpperCase req) w))
  = [(200%Z,
      Json (VObject
              [("valid", VBool true);
               ("promoCodeId", VString (PromotionCode.id first));
               ("percentOff", Coupon.percent_off (PromotionCode.coupon first));
               ("amountOff", Coupon.amount_off (PromotionCode.coupon first));
               ("duration", Coupon.duration (PromotionCode.coupon first));
               ("durationInMonths",
                Coupon.duration_in_months (PromotionCode.coupon first))]))].
Proof.
  intros H Hs Hans. unfold validate_promo. rewrite H.
  assert (Ht : truthy (VString s) = true).
  { cbn. destruct (String.eqb_spec s ""); [contradiction|reflexivity]. }
  rewrite Ht. unfold promo_lookup in Hans. cbn. rewrite Hans. reflexivity.
Qed.

(** X8. A promo code that is truthy but not a string (a number, [true], an
    array, an object) has no [toUpperCase]. /validate-promo then answers
    500 without calling the processor. /create-subscription answers 500
    too, but only after it has looked the customer up: it never asks for
    promotion codes and never creates a subscription. *)
Theorem promo_code_not_a_string (w : W) (req : request) :
  truthy (prop (body req) "promoCode") = true ->
  (forall s, prop (body req) "promoCode" <> VString s) ->
  run P (validate_promo toUpperCase req) w
  = Ran w [LoggedError [VString "Error validating promo code:";
                        error_value (not_a_function "promoCode.toUpperCase")];
           Responded 500 (Json (invalid_body (not_a_function "promoCode.toUpperCase")))]
      (Fulfilled tt) /\
  (let t := trace (run P (create_subscription toUpperCase req) w) in
   (exists b, responses t = [(500%Z, b)]) /\
   (exists r rest,
      t = Called (customer_lookup (prop (body req) "customerEmail")) r :: rest) /\
   (forall params, ~ In (promotionCodes_list params) (calls t)) /\
   (forall params, ~ In (subscriptions_create params) (calls t))).
Proof.
  intros Ht Hs. split.
  - unfold validate_promo. rewrite Ht.
    destruct (prop (body req) "promoCode") as [| |b|n|s|items|props|bytes];
      try reflexivity; try discriminate Ht.
    destruct (Hs s eq_refl).
  - unfold create_subscription, customer_lookup. rewrite Ht.
    destruct (prop (body req) "promoCode");
      try discriminate Ht; try (destruct (Hs s eq_refl)).
    all: answer_cases P.
    all: cbn; repeat split; eauto; intros params H; entry_cases;
      repeat match goal with H : _ \/ _ |- _ => destruct H as [H|H] end;
      try discriminate; try contradiction.
Qed.

(** X9. What /create-subscription asks the processor to create: a
    subscription for the price, left incomplete until the client pays,
    tagged with the caller's user id; it carries a promotion code exactly
    when the lookup of this run found one, and then the id of the first
    match. *)
Theorem create_subscription_options (w : W) (req : request) (params : value) :
  let t := trace (run P (create_subscription toUpperCase req) w) in
  In (subscriptions_create params) (calls t) ->
  prop params "items" = VArray [VObject [("price", prop (body req) "priceId")]] /\
  prop params "payment_behavior" = VString "default_incomplete" /\
  prop params "expand" = VArray [VString "latest_invoice.payment_intent"] /\
  prop params "metadata"
  = VObject [("eventer_user_id", prop (body req) "customerId")] /\
  (truthy (prop (body req) "promoCode") = false ->
   prop params "promotion_code" = VUndefined /\
   forall lookup, ~ In (promotionCodes_list lookup) (calls t)) /\
  (forall code page,
     In (Called (promo_lookup code) (Fulfilled (PromotionCodes page))) t ->
     prop params "promotion_code"
     = match ApiList.data page with
       | first :: _ => VString (PromotionCode.id first)
       | [] => VUndefined
       end).
Proof.
  intro t. subst t. unfold create_subscription, promo_lookup.
  destruct (truthy (prop (body req) "promoCode")) eqn:Ht.
  destruct (prop (body req) "promoCode").
  all: answer_cases P.
  all: try match goal with
         | r : reply_of (subscriptions_create _) |- _ =>
             cbn in r; destruct r as [sid scus sst [[iid [pi|]]|]]
         end.
  all: cbn; intro H;
    repeat match goal with
      | H : _ \/ _ |- _ => destruct H as [H|H]
      | H : False |- _ => destruct H
      end; try discriminate H; injection H as <-; cbn.
  all: repeat split; try discriminate.
  all: try (intros lookup F; cbn in F; intuition discriminate).
  all: intros code page F; cbn in F; entry_cases; try contradiction; reflexivity.
Qed.

End PromoCodes.

(** ** Customers, and what a success answers *)

Section Customers.

Context {W : Type} (P : processor W).
Variable toUpperCase : string -> string.

(** X10. A customer the processor lists for the email is taken as it is: the
    first of the listing is used, no customer is created, and the caller's
    user id is not compared with anything. /create-subscription does so for
    every request, /create-payment-intent for those with a customer id. *)
Theorem customer_first_match_reused (process_env : list (string * string))
    (w w1 : W) (req : request) (first : Customer.t) (others : list Customer.t)
    (more : bool) :
  answer P (customer_lookup (prop (body req) "customerEmail")) w
  = (w1, Fulfilled (ApiList.Make (first :: others) more)) ->
  let key_for_first :=
    ephemeralKeys_create (VObject [("customer", VString (Customer.id first))])
      (VObject [("apiVersion", VString "2023-10-16")]) in
  (let t := trace (run P (create_subscription toUpperCase req) w) in
   (exists rest,
      calls t = customer_lookup (prop (body req) "customerEmail")
                :: key_for_first :: rest) /\
   (forall params, ~ In (customers_create params) (calls t))) /\
  (truthy (prop (body req) "customerId") = true ->
   let t := trace (run P (create_payment_intent process_env req) w) in
   (exists rest,
      calls t = customer_lookup (prop (body req) "customerEmail")
                :: key_for_first :: rest) /\
   (forall params, ~ In (customers_create params) (calls t))).
Proof.
  intros Hans key_for_first. subst key_for_first. unfold customer_lookup in *. split.
  - unfold create_subscription. cbn. rewrite Hans. cbn.
    destruct (truthy (prop (body req) "promoCode")).
    destruct (prop (body req) "promoCode").
    all: answer_cases P.
    all: try match goal with
           | r : reply_of (subscriptions_create _) |- _ =>
               cbn in r; destruct r as [sid scus sst [[iid [pi|]]|]]
           end.
    all: cbn; split; [eexists; reflexivity|].
    all: intros params H; cbn in H; intuition discriminate.
  - intro Ht. unfold create_payment_intent. rewrite Ht. cbn. rewrite Hans. cbn.
    answer_cases P.
    all: split; [eexists; reflexivity|].
    all: intros params H; cbn in H; intuition discriminate.
Qed.

(** X11. A 200 of /create-payment-intent hangs together: the ephemeral key and
    the payment intent it hands out were both created in this run, for the
    customer it names; the payment intent is for the amount of the request,
    with automatic payment methods, in the currency of the request, or in
    usd when the request names none. *)
Theorem create_payment_intent_sheet (process_env : list (string * string))
    (w : W) (req : request) (b : res_body) :
  let t := trace (run P (create_payment_intent process_env req) w) in
  In (Responded 200 b) t ->
  exists (customer : string) (key : EphemeralKey.t) (pi : PaymentIntent.t)
         (params : value),
    b = payment_sheet process_env (PaymentIntent.client_secret pi)
          (EphemeralKey.secret key) customer /\
    In (Called (ephemeralKeys_create (VObject [("customer", VString customer)])
                  (VObject [("apiVersion", VString "2023-10-16")]))
          (Fulfilled (AnEphemeralKey key))) t /\
    In (Called (paymentIntents_create params) (Fulfilled (APaymentIntent pi))) t /\
    prop params "customer" = VString customer /\
    prop params "amount" = prop (body req) "amount" /\
    prop params "currency" = js_or (prop (body req) "currency") (VString "usd") /\
    truthy (prop params "currency") = true /\
    prop params "automatic_payment_methods" = VObject [("enabled", VBool true)].
Proof.
  intro t. subst t. unfold create_payment_intent.
  assert (Hcur : truthy (js_or (prop (body req) "currency") (VString "usd")) = true).
  { unfold js_or. destruct (truthy (prop (body req) "currency")) eqn:E; [exact E|reflexivity]. }
  destruct (truthy (prop (body req) "customerId")).
  all: answer_cases P.
  all: intro H; cbn in H; entry_cases; try contradiction.
  all: do 4 eexists; split; [reflexivity|].
  all: split; [cbn; eauto 8|]; split; [cbn; eauto 8|].
  all: cbn; repeat split; exact Hcur.
Qed.

(** X12. A 200 of /create-subscription hangs together: the subscription it
    names was created in this run, for the customer it names, and the
    client secret is that of the payment intent of its latest invoice. *)
Theorem create_subscription_sheet (w : W) (req : request) (b : res_body) :
  let t := trace (run P (create_subscription toUpperCase req) w) in
  In (Responded 200 b) t ->
  exists (customer : string) (key : EphemeralKey.t) (s : Subscription.t)
         (inv : Invoice.t) (pi : PaymentIntent.t) (params : value),
    b = Json (VObject [("subscriptionId", VString (Subscription.id s));
                       ("paymentIntent", VString (PaymentIntent.client_secret pi));
                       ("ephemeralKey", VString (EphemeralKey.secret key));
                       ("customer", VString customer)]) /\
    Subscription.latest_invoice s = Some inv /\
    Invoice.payment_intent inv = Some pi /\
    In (Called (subscriptions_create params) (Fulfilled (ASubscription s))) t /\
    prop params "customer" = VString customer /\
    In (Called (ephemeralKeys_create (VObject [("customer", VString customer)])
                  (VObject [("apiVersion", VString "2023-10-16")]))
          (Fulfilled (AnEphemeralKey key))) t.
Proof.
  intro t. subst t. unfold create_subscription.
  destruct (truthy (prop (body req) "promoCode")).
  destruct (prop (body req) "promoCode").
  all: answer_cases P.
  all: try match goal with
         | r : reply_of (subscriptions_create _) |- _ =>
             cbn in r; cbn;
             destruct (Subscription.latest_invoice r) as [inv|] eqn:Hinv; cbn;
             [destruct (Invoice.payment_intent inv) as [pi|] eqn:Hpi|]
         end.
  all: intro H; cbn in H; entry_cases; try contradiction.
  all: do 6 eexists; split; [reflexivity|].
  all: split; [eassumption|]; split; [eassumption|].
  all: split; [cbn; eauto 10|]; split; [reflexivity|]; cbn; eauto 10.
Qed.

(** X13. Without a promo code the current /create-subscription is the earlier
    one: the same calls with the same parameters and the same answers, on
    every processor. *)
Theorem create_subscription_as_earlier (w : W) (req : request) :
  truthy (prop (body req) "promoCode") = false ->
  create_subscription toUpperCase req = Earlier.create_subscription req /\
  run P (create_subscription toUpperCase req) w = run P (Earlier.create_subscription req) w.
Proof.
  intro Ht.
  assert (H : create_subscription toUpperCase req = Earlier.create_subscription req).
  { unfold create_subscription, Earlier.create_subscription. rewrite Ht. reflexivity. }
  split; [exact H|]. rewrite H. reflexivity.
Qed.

End Customers.

(** ** Startup *)

Lemma field_cases (name : string) (table : list (string * string)) :
  field name table = VUndefined \/ exists s, field name table = VString s.
Proof.
  induction table as [|[k v] table IH]; cbn; [auto|].
  destruct (name =? k); eauto.
Qed.

Lemma stripeSecretKey_cases (process_env : list (string * string)) :
  stripeSecretKey process_env = VUndefined \/
  exists s, stripeSecretKey process_env = VString s.
Proof.
  unfold stripeSecretKey, js_or.
  destruct (truthy (field "STRIPE_SECRET_KEY" process_env)); apply field_cases.
Qed.

(** X14. The startup lines tell of the secret key only whether there is one
    and how long it is: two environments with the same port whose keys
    have the same length write the same lines. The key in use is the live
    one when it is set and not empty, the test one otherwise. *)
Theorem listening_reveals_only_length (env1 env2 : list (string * string)) :
  PORT env1 = PORT env2 ->
  js_length (stripeSecretKey env1) = js_length (stripeSecretKey env2) ->
  listening env1 = listening env2 /\
  (forall live, field "STRIPE_SECRET_KEY" env1 = VString live -> live <> "" ->
                stripeSecretKey env1 = VString live) /\
  (truthy (field "STRIPE_SECRET_KEY" env1) = false ->
   stripeSecretKey env1 = field "STRIPE_TEST_SECRET_KEY" env1).
Proof.
  intros Hport Hlen. split; [|split].
  - unfold listening. rewrite Hport.
    destruct (stripeSecretKey_cases env1) as [H1|[s1 H1]];
      destruct (stripeSecretKey_cases env2) as [H2|[s2 H2]];
      rewrite H1, H2 in *; cbn in Hlen; try discriminate Hlen; try reflexivity.
    injection Hlen as Hlen. apply Nat2Z.inj in Hlen.
    cbn. rewrite Hlen.
    destruct s1, s2; cbn in *; try discriminate Hlen; reflexivity.
  - intros live H Hne. unfold stripeSecretKey, js_or. rewrite H. cbn.
    destruct (String.eqb_spec live ""); [contradiction|reflexivity].
  - intro H. unfold stripeSecretKey, js_or. rewrite H. reflexivity.
Qed.

(** ** The routes on the reference processor *)

Lemma first_of_filter {A : Type} (f : A -> bool) (l : list A) :
  firstn 1 (filter f l) = match find f l with Some a => [a] | None => [] end.
Proof.
  induction l as [|a l IH]; cbn; [reflexivity|].
  destruct (f a); [reflexivity|exact IH].
Qed.

(** X15. On the reference processor /validate-promo answers for the first
    active promotion code whose code is the upper-case form of the input,
    and [{valid: false}] when there is none; a code that exists but is not
    active is never validated. *)
Theorem validate_promo_on_reference (toUpperCase : string -> string)
    (w : Reference.world) (req : request) (s : string) :
  prop (body req) "promoCode" = VString s ->
  s <> "" ->
  responses (trace (run Reference.stripe (validate_promo toUpperCase req) w))
  = [(200%Z,
      Json match find (Reference.is_code (toUpperCase s) true)
                   (Reference.promotion_codes w) with
           | Some p => promo_terms p
           | None => VObject [("valid", VBool false)]
           end)] /\
  ((forall p, In p (Reference.promotion_codes w) ->
              PromotionCode.code p = toUpperCase s ->
              PromotionCode.active p = false) ->
   responses (trace (run Reference.stripe (validate_promo toUpperCase req) w))
   = [(200%Z, Json (VObject [("valid", VBool false)]))]).
Proof.
  intros H Hs.
  assert (Hr : responses (trace (run Reference.stripe (validate_promo toUpperCase req) w))
               = [(200%Z,
                   Json match find (Reference.is_code (toUpperCase s) true)
                                (Reference.promotion_codes w) with
                        | Some p => promo_terms p
                        | None => VObject [("valid", VBool false)]
                        end)]).
  { unfold validate_promo. rewrite H.
    assert (Ht : truthy (VString s) = true).
    { cbn. destruct (String.eqb_spec s ""); [contradiction|reflexivity]. }
    rewrite Ht. cbn -[filter]. change (Pos.to_nat 1) with 1%nat.
    rewrite first_of_filter.
    destruct (find _ (Reference.promotion_codes w)); reflexivity. }
  split; [exact Hr|].
  intro Hinactive. rewrite Hr.
  destruct (find _ (Reference.promotion_codes w)) as [p|] eqn:F; [|reflexivity].
  apply find_some in F. destruct F as [Hin Hp].
  unfold Reference.is_code in Hp. apply andb_true_iff in Hp. destruct Hp as [Hc Ha].
  apply String.eqb_eq in Hc. symmetry in Hc.
  rewrite (Hinactive p Hin Hc) in Ha. discriminate Ha.
Qed.

Lemma cancel_in_skips (id : string) (before l : list Subscription.t) :
  ~ In id (map Subscription.id before) ->
  Reference.cancel_in id (before ++ l)
  = match Reference.cancel_in id l with
    | Some (c, l') => Some (c, (before ++ l')%list)
    | None => None
    end.
Proof.
  induction before as [|s before IH]; cbn; intro H.
  - destruct (Reference.cancel_in id l) as [[c l']|]; reflexivity.
  - destruct (String.eqb_spec id (Subscription.id s)) as [E|E];
      [exfalso; apply H; left; symmetry; exact E|].
    rewrite IH by tauto.
    destruct (Reference.cancel_in id l) as [[c l']|]; reflexivity.
Qed.

Lemma not_refused (id : string) (refused : list string) :
  ~ In id refused -> existsb (String.eqb id) refused = false.
Proof.
  induction refused as [|r refused IH]; cbn; intro H; [reflexivity|].
  destruct (String.eqb_spec id r) as [E|E]; [subst; tauto|]. apply IH. tauto.
Qed.

(** The reference processor fulfils the cancellation of the first [n]
    subscriptions picked by [f], one after the other, when their ids are
    unambiguous and none is refused. *)
Lemma reference_cancels (f : Subscription.t -> bool) (w : Reference.world)
    (l : list Subscription.t) :
  forall (n : nat) (before : list Subscription.t),
    NoDup (map Subscription.id (before ++ l)) ->
    (forall s, In s (firstn n (filter f l)) ->
               ~ In (Subscription.id s) (Reference.refused w)) ->
    cancels Reference.stripe (firstn n (filter f l))
      (with_subscriptions w (before ++ l))
      (map Reference.canceled (firstn n (filter f l)))
      (with_subscriptions w (before ++ cancel_first n f l)).
Proof.
  induction l as [|s rest IH]; intros n before Hnd Href.
  - destruct n; cbn; constructor.
  - destruct n as [|n]; [cbn; constructor|].
    cbn [filter cancel_first]. destruct (f s) eqn:Hf.
    + cbn [firstn map].
      assert (Hs : ~ In (Subscription.id s) (map Subscription.id before)).
      { rewrite map_app in Hnd. cbn in Hnd. apply NoDup_remove_2 in Hnd.
        intro Hin. apply Hnd. apply in_or_app. left. exact Hin. }
      eapply cancels_cons.
      * cbn [answer Reference.stripe Reference.answers].
        unfold Reference.cancel_subscription, with_subscriptions.
        cbn [Reference.refused Reference.subscriptions Reference.customers
             Reference.promotion_codes Reference.created Reference.deliveries].
        rewrite not_refused by (apply Href; cbn; rewrite Hf; left; reflexivity).
        rewrite (@cancel_in_skips _ before (s :: rest) Hs). cbn [Reference.cancel_in].
        rewrite String.eqb_refl. reflexivity.
      * replace (before ++ Reference.canceled s :: rest)%list
          with ((before ++ [Reference.canceled s]) ++ rest)%list
          by (rewrite <- app_assoc; reflexivity).
        replace (before ++ Reference.canceled s :: cancel_first n f rest)%list
          with ((before ++ [Reference.canceled s]) ++ cancel_first n f rest)%list
          by (rewrite <- app_assoc; reflexivity).
        apply (IH n (before ++ [Reference.canceled s])%list).
        -- rewrite <- app_assoc. cbn. rewrite map_app in *. exact Hnd.
        -- intros s' Hin. apply Href. cbn. rewrite Hf. right. exact Hin.
    + replace (before ++ s :: rest)%list with ((before ++ [s]) ++ rest)%list
        by (rewrite <- app_assoc; reflexivity).
      replace (before ++ s :: cancel_first (S n) f rest)%list
        with ((before ++ [s]) ++ cancel_first (S n) f rest)%list
        by (rewrite <- app_assoc; reflexivity).
      apply (IH (S n) (before ++ [s])%list).
      * rewrite <- app_assoc. exact Hnd.
      * intros s' Hin. apply Href. cbn. rewrite Hf. exact Hin.
Qed.

Lemma filter_cancel_first (cus : string) (n : nat) (l : list Subscription.t) :
  filter (Reference.owned cus "active") (cancel_first n (Reference.owned cus "active") l)
  = skipn n (filter (Reference.owned cus "active") l).
Proof.
  revert n; induction l as [|s rest IH]; intro n.
  - destruct n; reflexivity.
  - destruct n as [|n]; [reflexivity|].
    cbn [cancel_first filter].
    destruct (Reference.owned cus "active" s) eqn:Hf.
    + cbn [filter skipn].
      replace (Reference.owned cus "active" (Reference.canceled s)) with false.
      * apply IH.
      * unfold Reference.owned. cbn. rewrite andb_false_r. reflexivity.
    + cbn [filter]. rewrite Hf. apply IH.
Qed.

Lemma ids_canceled (l : list Subscription.t) : ids (map Reference.canceled l) = ids l.
Proof.
  unfold ids. rewrite map_map. reflexivity.
Qed.

(** X16. /cancel-subscription works through the active subscriptions ten at a
    time. On the reference processor, for a customer with active
    subscriptions (ids unambiguous, none refused), a request cancels the
    first ten and answers with their ids; the others stay active, and no
    further page is asked for. With at most ten, nothing stays active and
    the same request again answers 404. *)
Theorem cancel_subscription_pages (w : Reference.world) (req : request) (cus : string) :
  prop (body req) "customerId" = VString cus ->
  cus <> "" ->
  NoDup (map Subscription.id (Reference.subscriptions w)) ->
  let active := filter (Reference.owned cus "active") (Reference.subscriptions w) in
  (forall s, In s (firstn 10 active) -> ~ In (Subscription.id s) (Reference.refused w)) ->
  active <> [] ->
  let t := run Reference.stripe (cancel_subscription req) w in
  responses (trace t)
  = [(200%Z, Json (VObject [("success", VBool true);
                            ("canceledSubscriptions", VArray (ids (firstn 10 active)))]))] /\
  calls (trace t)
  = active_subscriptions (VString cus)
    :: map (fun s => subscriptions_cancel (Subscription.id s)) (firstn 10 active) /\
  filter (Reference.owned cus "active") (Reference.subscriptions (world t))
  = skipn 10 active /\
  ((List.length active <= 10)%nat ->
   responses (trace (run Reference.stripe (cancel_subscription req) (world t)))
   = [(404%Z, Json (VObject [("error", VString "No active subscription found")]))]).
Proof.
  intros Hc Hcus Hnd active Href Hne t.
  assert (Ht : truthy (prop (body req) "customerId") = true).
  { rewrite Hc. cbn. destruct (String.eqb_spec cus ""); [contradiction|reflexivity]. }
  assert (Hlist : forall w0 : Reference.world,
            answer Reference.stripe (active_subscriptions (prop (body req) "customerId")) w0
            = (w0, Fulfilled (Reference.page 10
                                (filter (Reference.owned cus "active")
                                   (Reference.subscriptions w0))))).
  { intro w0. rewrite Hc. reflexivity. }
  assert (Hpage : forall l : list Subscription.t,
            ApiList.data (Reference.page 10 l) = firstn 10 l).
  { intro l. reflexivity. }
  pose proof (@reference_cancels (Reference.owned cus "active") w
                (Reference.subscriptions w) 10 [] Hnd Href) as Hcs.
  cbn [app] in Hcs.
  replace (with_subscriptions w (Reference.subscriptions w)) with w in Hcs
    by (destruct w; reflexivity).
  fold active in Hcs.
  assert (Hrun : t = Ran (with_subscriptions w
                            (cancel_first 10 (Reference.owned cus "active")
                               (Reference.subscriptions w)))
                       (Called (active_subscriptions (prop (body req) "customerId"))
                          (Fulfilled (Subscriptions (Reference.page 10 active)))
                        :: cancellations (firstn 10 active)
                             (map Reference.canceled (firstn 10 active))
                        ++ [Responded 200
                              (Json (VObject
                                 [("success", VBool true);
                                  ("canceledSubscriptions",
                                   VArray (ids (firstn 10 active)))]))])%list
                       (Fulfilled tt)).
  { subst t.
    rewrite (@run_cancel_subscription_listed _ Reference.stripe w w req
               (Reference.page 10 active) Ht (Hlist w)).
    - rewrite Hpage. rewrite (run_cancel_each Hcs []). cbn [returned world trace app].
      rewrite ids_canceled. reflexivity.
    - rewrite Hpage. destruct active; [contradiction|discriminate]. }
  rewrite Hrun. cbn [trace world].
  assert (Hafter : filter (Reference.owned cus "active")
                     (cancel_first 10 (Reference.owned cus "active")
                        (Reference.subscriptions w))
                   = skipn 10 active).
  { apply filter_cancel_first. }
  split; [|split; [|split]].
  - cbn. rewrite responses_app, responses_cancellations. reflexivity.
  - cbn. rewrite calls_app, calls_cancellations by (rewrite length_map; reflexivity).
    cbn. rewrite app_nil_r, Hc. reflexivity.
  - exact Hafter.
  - intro Hlen. unfold cancel_subscription. rewrite Ht.
    cbn -[filter cancel_first Reference.page]. rewrite Hc.
    cbn -[filter cancel_first]. change (Pos.to_nat 10) with 10%nat.
    rewrite Hafter, skipn_all2 by exact Hlen. reflexivity.
Qed.

(** One /create-subscription on the reference processor, for a request
    with an email and a promo code that is absent or a string. *)
Lemma create_subscription_on_reference (toUpperCase : string -> string)
    (w : Reference.world) (req : request) (e : string) :
  prop (body req) "customerEmail" = VString e ->
  (truthy (prop (body req) "promoCode") = false \/
   exists s, prop (body req) "promoCode" = VString s) ->
  let w' := world (run Reference.stripe (create_subscription toUpperCase req) w) in
  exists c s,
    hd_error (filter (Reference.has_email e) (Reference.customers w')) = Some c /\
    Reference.subscriptions w' = s :: Reference.subscriptions w /\
    Subscription.customer s = Customer.id c /\
    (filter (Reference.has_email e) (Reference.customers w) <> [] ->
     Reference.customers w' = Reference.customers w).
Proof.
  intros He Hp w'. subst w'. unfold create_subscription. rewrite He.
  cbn -[filter]. change (Pos.to_nat 1) with 1%nat.
  destruct (filter (Reference.has_email e) (Reference.customers w)) as [|m ms] eqn:F;
    cbn -[filter];
    (destruct Hp as [Hp|[s Hp]]; rewrite Hp; cbn -[filter existsb];
     [|destruct (s =? ""); cbn -[filter existsb]; change (Pos.to_nat 1) with 1%nat;
       [|destruct (filter (Reference.is_code (toUpperCase s) true)
                     (Reference.promotion_codes w)) as [|p ps];
         cbn -[filter existsb]; try rewrite String.eqb_refl;
         [|destruct (existsb _ (Reference.promotion_codes w))]; cbn -[filter existsb]]]).
  all: try (unfold Reference.has_email at 1; cbn [filter Customer.email];
            rewrite String.eqb_refl); try rewrite F; cbn [hd_error].
  all: do 2 eexists; repeat split; try (intro H; contradiction).
Qed.

(** X17. /create-subscription is not idempotent. On the reference processor
    two requests with the same email, one after the other, leave two new
    subscriptions, both of the one customer with that email, whatever
    customer ids the requests name and whether a request was answered 200
    or, fully discounted, 500; the second request creates no customer. *)
Theorem create_subscription_repeated (toUpperCase : string -> string)
    (w : Reference.world) (req1 req2 : request)
    (e : string) :
  prop (body req1) "customerEmail" = VString e ->
  prop (body req2) "customerEmail" = VString e ->
  (truthy (prop (body req1) "promoCode") = false \/
   exists s, prop (body req1) "promoCode" = VString s) ->
  (truthy (prop (body req2) "promoCode") = false \/
   exists s, prop (body req2) "promoCode" = VString s) ->
  let first := run Reference.stripe (create_subscription toUpperCase req1) w in
  let second := run Reference.stripe (create_subscription toUpperCase req2) (world first) in
  exists c s1 s2,
    Reference.subscriptions (world second) = s2 :: s1 :: Reference.subscriptions w /\
    Subscription.customer s1 = Customer.id c /\
    Subscription.customer s2 = Customer.id c /\
    Reference.customers (world second) = Reference.customers (world first).
Proof.
  intros E1 E2 P1 P2 first second.
  destruct (create_subscription_on_reference toUpperCase w req1 E1 P1) as (c1 & s1 & H1 & S1 & C1 & _).
  fold first in H1, S1.
  destruct (create_subscription_on_reference toUpperCase (world first) req2 E2 P2)
    as (c2 & s2 & H2 & S2 & C2 & K2).
  fold second in H2, S2, K2.
  assert (Hne : filter (Reference.has_email e) (Reference.customers (world first)) <> []).
  { intro F. rewrite F in H1. discriminate H1. }
  specialize (K2 Hne). rewrite K2, H1 in H2. injection H2 as <-.
  exists c1, s1, s2. rewrite S2, S1. repeat split; assumption.
Qed.

(** ** These statements on concrete executions *)

Lemma rejection_aborts_witness :
  exists c,
    aborted_by "Error creating payment intent:" error_body c
      (Reference.invalid "Invalid amount or currency")
      (trace (run Reference.stripe (create_payment_intent [] Sample.no_amount)
                Example.fresh_processor)).
Proof.
  eexists.
  apply (proj1 (@rejection_aborts _ Reference.stripe toUpperCase_ascii [] Example.fresh_processor
                  Sample.no_amount _ _)).
  cbn. do 3 right. left. reflexivity.
Defined.

Lemma validate_promo_first_match_witness :
  responses (trace (run Reference.stripe (validate_promo toUpperCase_ascii (Example.promo (VString "save10")))
                      Example.with_promotion_codes))
  = [(200%Z, Json (VObject [("valid", VBool true); ("promoCodeId", VString "promo_1");
                            ("percentOff", VNumber 10); ("amountOff", VNull);
                            ("duration", VString "once"); ("durationInMonths", VNull)]))].
Proof.
  refine (@validate_promo_first_match _ Reference.stripe toUpperCase_ascii Example.with_promotion_codes
            Example.with_promotion_codes (Example.promo (VString "save10")) "save10"
            _ [] false eq_refl _ eq_refl).
  discriminate.
Defined.

Lemma promo_code_not_a_string_witness :
  responses (trace (run Reference.stripe (create_subscription toUpperCase_ascii Sample.numeric_promo)
                      Example.with_promotion_codes))
  = [(500%Z, Json (VObject [("error", VString "promoCode.toUpperCase is not a function")]))] /\
  Reference.subscriptions
    (world (run Reference.stripe (create_subscription toUpperCase_ascii Sample.numeric_promo)
              Example.with_promotion_codes))
  = [] /\
  forall params,
    ~ In (subscriptions_create params)
         (calls (trace (run Reference.stripe (create_subscription toUpperCase_ascii Sample.numeric_promo)
                          Example.with_promotion_codes))).
Proof.
  split; [reflexivity|]. split; [reflexivity|].
  refine (proj2 (proj2 (proj2 (proj2
            (@promo_code_not_a_string _ Reference.stripe toUpperCase_ascii Example.with_promotion_codes
               Sample.numeric_promo eq_refl _))))).
  intros s H. discriminate H.
Defined.

Lemma create_subscription_options_witness :
  exists params,
    In (subscriptions_create params)
       (calls (trace (run Reference.stripe (create_subscription toUpperCase_ascii (Example.subscribe "save10"))
                        Example.with_promotion_codes))) /\
    prop params "payment_behavior" = VString "default_incomplete" /\
    prop params "promotion_code" = VString "promo_1".
Proof.
  eexists. split.
  - cbn. do 4 right. left. reflexivity.
  - pose proof (@create_subscription_options _ Reference.stripe toUpperCase_ascii Example.with_promotion_codes
                  (Example.subscribe "save10") _
                  (or_intror (or_intror (or_intror (or_intror (or_introl eq_refl))))))
      as (_ & Hb & _).
    split; [exact Hb|reflexivity].
Defined.

Lemma customer_first_match_reused_witness :
  responses (trace (run Reference.stripe (create_payment_intent [] Example.pay_as_user)
                      Sample.with_customer))
  = [(200%Z, payment_sheet [] "pi_1_secret_1" "ek_test_0" "cus_9")] /\
  forall params,
    ~ In (customers_create params)
         (calls (trace (run Reference.stripe (create_payment_intent [] Example.pay_as_user)
                          Sample.with_customer))).
Proof.
  split; [reflexivity|].
  exact (proj2 (proj2 (@customer_first_match_reused _ Reference.stripe toUpperCase_ascii []
                         Sample.with_customer Sample.with_customer Example.pay_as_user
                         Sample.known_customer [] false eq_refl) eq_refl)).
Defined.

Lemma create_payment_intent_sheet_witness :
  exists (pi : PaymentIntent.t) (params : value),
    PaymentIntent.client_secret pi = "pi_1_secret_1" /\
    In (Called (paymentIntents_create params) (Fulfilled (APaymentIntent pi)))
       (trace (run Reference.stripe (create_payment_intent [] Example.pay_as_user)
                 Sample.with_customer)) /\
    prop params "customer" = VString "cus_9" /\
    prop params "currency" = VString "usd".
Proof.
  destruct (@create_payment_intent_sheet _ Reference.stripe [] Sample.with_customer
              Example.pay_as_user
              (payment_sheet [] "pi_1_secret_1" "ek_test_0" "cus_9")
              (or_intror (or_intror (or_intror (or_introl eq_refl)))))
    as (customer & key & pi & params & Hb & _ & Hin & Hcus & _ & Hcur & _).
  injection Hb as Hsecret _ Hcustomer.
  exists pi, params. rewrite Hcus, Hcur, <- Hcustomer. repeat split; auto.
Defined.

Lemma create_subscription_sheet_witness :
  exists (s : Subscription.t) (inv : Invoice.t) (pi : PaymentIntent.t),
    Subscription.id s = "sub_2" /\
    Subscription.latest_invoice s = Some inv /\
    Invoice.payment_intent inv = Some pi /\
    PaymentIntent.client_secret pi = "pi_2_secret_2".
Proof.
  destruct (@create_subscription_sheet _ Reference.stripe toUpperCase_ascii Example.with_promotion_codes
              (Example.subscribe "save10")
              (Json (VObject [("subscriptionId", VString "sub_2");
                              ("paymentIntent", VString "pi_2_secret_2");
                              ("ephemeralKey", VString "ek_test_1");
                              ("customer", VString "cus_0")]))
              (or_intror (or_intror (or_intror (or_intror (or_intror
                 (or_introl eq_refl)))))))
    as (customer & key & s & inv & pi & params & Hb & Hinv & Hpi & _).
  injection Hb as Hid Hsecret _ _.
  exists s, inv, pi. repeat split; auto.
Defined.

Lemma create_subscription_as_earlier_witness :
  run Reference.stripe (create_subscription toUpperCase_ascii Example.pay_as_user) Sample.with_customer
  = run Reference.stripe (Earlier.create_subscription Example.pay_as_user)
      Sample.with_customer.
Proof.
  exact (proj2 (@create_subscription_as_earlier _ Reference.stripe toUpperCase_ascii Sample.with_customer
                  Example.pay_as_user eq_refl)).
Defined.

Lemma listening_reveals_only_length_witness :
  listening Sample.live_env = listening Sample.test_env /\
  stripeSecretKey Sample.live_env = VString "sk_live_1234" /\
  stripeSecretKey Sample.test_env = VString "sk_test_abcd".
Proof.
  split; [|split; reflexivity].
  exact (proj1 (@listening_reveals_only_length Sample.live_env Sample.test_env
                  eq_refl eq_refl)).
Defined.

Lemma validate_promo_on_reference_witness :
  responses (trace (run Reference.stripe (validate_promo toUpperCase_ascii (Example.promo (VString "save10")))
                      Sample.with_inactive_code))
  = [(200%Z, Json (VObject [("valid", VBool false)]))].
Proof.
  refine (proj2 (@validate_promo_on_reference toUpperCase_ascii Sample.with_inactive_code
                   (Example.promo (VString "save10")) "save10" eq_refl _) _).
  - discriminate.
  - intros p [<-|[]] _. reflexivity.
Defined.

Lemma cancel_subscription_pages_witness :
  responses (trace (run Reference.stripe (cancel_subscription (Example.cancel (VString "cus_1")))
                      Sample.eleven_subscriptions))
  = [(200%Z, Json (VObject [("success", VBool true);
                            ("canceledSubscriptions", VArray (ids (firstn 10 Sample.eleven)))]))] /\
  filter (Reference.owned "cus_1" "active")
    (Reference.subscriptions
       (world (run Reference.stripe (cancel_subscription (Example.cancel (VString "cus_1")))
                 Sample.eleven_subscriptions)))
  = [Example.sub "11"].
Proof.
  assert (Hnd : NoDup (map Subscription.id (Reference.subscriptions Sample.eleven_subscriptions))).
  { cbn. repeat constructor; cbn; intuition discriminate. }
  pose proof (@cancel_subscription_pages Sample.eleven_subscriptions
                (Example.cancel (VString "cus_1")) "cus_1" eq_refl) as H.
  cbv zeta in H.
  destruct H as (Hres & _ & Hleft & _).
  - discriminate.
  - exact Hnd.
  - intros s _ [].
  - discriminate.
  - split; [exact Hres|exact Hleft].
Defined.

Lemma create_subscription_repeated_witness :
  exists c s1 s2,
    Reference.subscriptions
      (world (run Reference.stripe (create_subscription toUpperCase_ascii (Example.subscribe "free100"))
                (world (run Reference.stripe
                          (create_subscription toUpperCase_ascii (Example.subscribe "free100"))
                          Example.with_promotion_codes))))
    = [s2; s1] /\
    Subscription.customer s1 = Customer.id c /\
    Subscription.customer s2 = Customer.id c.
Proof.
  destruct (@create_subscription_repeated toUpperCase_ascii Example.with_promotion_codes
              (Example.subscribe "free100") (Example.subscribe "free100")
              "a@example.com" eq_refl eq_refl
              (or_intror (ex_intro _ "free100" eq_refl))
              (or_intror (ex_intro _ "free100" eq_refl)))
    as (c & s1 & s2 & Hs & H1 & H2 & _).
  exists c, s1, s2. repeat split; assumption.
Defined.
